(** * My-Messenger backend: a shallow embedding of [backend/server.py]

    The server keeps three pieces of state: the MongoDB collections
    [db.users] and [db.messages], the process-wide dictionary
    [active_connections], and the WebSocket objects the dictionary points
    to.  Every endpoint is embedded as a function in a state-and-exception
    monad over a record [World] holding that state.  What the
    environment decides (fresh uuids, the clock, whether the database
    answers, whether a socket still takes writes, what the peer sends) is
    either a field of [World] or an explicit argument. *)

From stdpp Require Import base option list gmap strings pretty sorting.

Local Open Scope string_scope.
Local Open Scope list_scope.
Local Open Scope Z_scope.

(** ** Exceptions and results *)

(** The exceptions that matter to the endpoints.  All of them are
    subclasses of Python's [Exception]. *)
Inductive exn : Type :=
  | ValidationError      (* pydantic: a required field is missing *)
  | TypeError            (* raised while building a JSON text *)
  | StorageError         (* the MongoDB driver reports a failure *)
  | WebSocketDisconnect  (* starlette: the peer closed the connection *)
  | TransportError       (* any other failure of a socket read or write *)
  | KeyError.            (* a dictionary has no such key *)

Inductive Result (A : Type) : Type :=
  | Ok (a : A)
  | Raise (e : exn).
Arguments Ok {A} a.
Arguments Raise {A} e.

#[global] Instance exn_eq_dec : EqDecision exn.
Proof. solve_decision. Defined.

(** ** JSON values

    A text frame is always produced by [json.dumps]; it is represented by
    the JSON value that was serialised. *)
#[warnings="-register-all"]
Inductive json : Type :=
  | JStr (s : string)
  | JObj (fields : list (string * json)).

(** ** The pydantic models *)

Module LoginRequest.
Record t : Type := Build { password : string }.
End LoginRequest.

Module LoginResponse.
Record t : Type := Build {
  success : bool;
  user : option string;
  token : string;
  message : string }.

(** The constructor [LoginResponse(...)]: [success], [token] and [message] are
    declared without a default and are therefore required; [user]
    defaults to [None].  An argument that was not passed is [None]
    here. *)
Definition init (success : option bool) (user : option (option string))
    (token : option string) (message : option string) : Result t :=
  match success, token, message with
  | Some s, Some t, Some m => Ok (Build s (default None user) t m)
  | _, _, _ => Raise ValidationError
  end.
End LoginResponse.

(** What the two [default_factory] calls of one object construction
    return: [str(uuid.uuid4())] and [datetime.utcnow()].  A [datetime]
    is its number of microseconds since the epoch. *)
Record Fresh : Type := { fresh_uuid : string; fresh_utcnow : Z }.

(** What a [datetime] is once it has been written to the database: a
    BSON date counts whole milliseconds, and the microseconds below the
    millisecond are dropped. *)
Definition bson_datetime (t : Z) : Z := 1000 * (t / 1000).

Module Message.
Record t : Type := Build {
  id : string;
  sender : string;
  receiver : string;
  encrypted_content : string;
  timestamp : Z }.

(** [Message(sender=..., receiver=..., encrypted_content=...)] *)
Definition init (f : Fresh) (sender receiver encrypted_content : string) : t :=
  Build (fresh_uuid f) sender receiver encrypted_content (fresh_utcnow f).

(** The document of a message as the database holds it and gives it
    back. *)
Definition stored (m : t) : t :=
  Build (id m) (sender m) (receiver m) (encrypted_content m)
    (bson_datetime (timestamp m)).

#[global] Instance eq_dec : EqDecision t.
Proof. solve_decision. Defined.
End Message.

Module MessageCreate.
Record t : Type := Build {
  receiver : string;
  encrypted_content : string }.
End MessageCreate.

Module User.
Record t : Type := Build {
  id : string;
  username : string;
  created_at : Z }.

(** [User(username=...)] *)
Definition init (f : Fresh) (username : string) : t :=
  Build (fresh_uuid f) username (fresh_utcnow f).

(** The document of a user as the database holds it. *)
Definition stored (u : t) : t :=
  Build (id u) (username u) (bson_datetime (created_at u)).
End User.

(** ** The state of the server *)

(** A WebSocket object: whether the transport still works, and the text
    frames written to it so far (oldest first). *)
Record WebSocket : Type := {
  ws_alive : bool;
  ws_sent : list json }.

(** [active_connections] maps a user name to a WebSocket object; objects
    are referred to by a handle into [sockets], so that two handlers and
    the dictionary can share one object. *)
Record World : Type := {
  db_available : bool;
  db_users : list User.t;
  db_messages : list Message.t;
  active_connections : gmap string nat;
  sockets : gmap nat WebSocket }.

Definition set_db_users (l : list User.t) (w : World) : World :=
  {| db_available := db_available w; db_users := l;
     db_messages := db_messages w;
     active_connections := active_connections w; sockets := sockets w |}.

Definition set_db_messages (l : list Message.t) (w : World) : World :=
  {| db_available := db_available w; db_users := db_users w;
     db_messages := l;
     active_connections := active_connections w; sockets := sockets w |}.

Definition set_active_connections (m : gmap string nat) (w : World) : World :=
  {| db_available := db_available w; db_users := db_users w;
     db_messages := db_messages w;
     active_connections := m; sockets := sockets w |}.

Definition set_sockets (s : gmap nat WebSocket) (w : World) : World :=
  {| db_available := db_available w; db_users := db_users w;
     db_messages := db_messages w;
     active_connections := active_connections w; sockets := s |}.

(** ** The monad of endpoint code

    A computation takes the world and returns a value or an exception,
    together with the world as it left it: what was changed before an
    exception stays changed. *)
Definition M (A : Type) : Type := World → Result A * World.

Definition ret {A} (a : A) : M A := λ w, (Ok a, w).

Definition raise {A} (e : exn) : M A := λ w, (Raise e, w).

Definition bind {A B} (m : M A) (k : A → M B) : M B :=
  λ w, match m w with
       | (Ok a, w') => k a w'
       | (Raise e, w') => (Raise e, w')
       end.

(** [try: body  except Exception as e: handler e] *)
Definition try_except {A} (body : M A) (handler : exn → M A) : M A :=
  λ w, match body w with
       | (Ok a, w') => (Ok a, w')
       | (Raise e, w') => handler e w'
       end.

Definition lift {A} (r : Result A) : M A := λ w, (r, w).

Definition get_world : M World := λ w, (Ok w, w).

Definition modify (f : World → World) : M unit := λ w, (Ok tt, f w).

Notation "'let*' x ':=' m 'in' k" := (bind m (λ x, k))
  (at level 10, x name, m at level 100, k at level 200,
   format "'[v' 'let*'  x  :=  m  'in' '/' k ']'").
Notation "m ;; k" := (bind m (λ _, k))
  (at level 100, k at level 200, right associativity).

(** ** The database

    Every call to the driver raises when the database is unreachable. *)
Definition db_call {A} (op : M A) : M A :=
  let* w := get_world in
  if db_available w then op else raise StorageError.

(** [db.users.find_one({"username": username})] *)
Definition users_find_one (username : string) : M (option User.t) :=
  db_call (let* w := get_world in
           ret (head (filter (λ u, User.username u = username) (db_users w)))).

(** [db.users.insert_one(doc)] *)
Definition users_insert_one (u : User.t) : M unit :=
  db_call (modify (λ w, set_db_users (db_users w ++ [User.stored u]) w)).

(** [db.messages.insert_one(doc)] *)
Definition messages_insert_one (m : Message.t) : M unit :=
  db_call (modify (λ w, set_db_messages (db_messages w ++ [Message.stored m]) w)).

(** ** Authentication *)

Definition USERS : gmap string string :=
  {[ "alphabravocharlie" := "Alpha"; "bravoalphacharlie" := "Bravo" ]}.

(** [login]; [user_fresh] feeds the [User] object that may be created and
    [token_uuid] is the value of the [uuid.uuid4()] call for the token. *)
Definition login (user_fresh : Fresh) (token_uuid : string)
    (request : LoginRequest.t) : M LoginResponse.t :=
  match USERS !! LoginRequest.password request with
  | Some username =>
      let* existing_user := users_find_one username in
      (match existing_user with
       | None => users_insert_one (User.init user_fresh username)
       | Some _ => ret tt
       end) ;;
      let token := token_uuid in
      lift (LoginResponse.init (Some true) (Some (Some username)) (Some token)
              (Some ("Welcome " +:+ username +:+ "!")))
  | None =>
      lift (LoginResponse.init (Some false) None None (Some "Invalid password"))
  end.

(** ** The connection registry: the operations on [active_connections] *)

(** [active_connections[user] = websocket] *)
Definition register (user : string) (ws : nat) : M unit :=
  modify (λ w, set_active_connections (<[user := ws]> (active_connections w)) w).

(** [active_connections.pop(user, None)] *)
Definition unregister (user : string) : M unit :=
  modify (λ w, set_active_connections (delete user (active_connections w)) w).

(** [user in active_connections] *)
Definition registered (user : string) : M bool :=
  let* w := get_world in
  ret (bool_decide (is_Some (active_connections w !! user))).

(** [active_connections[user]] *)
Definition connection_of (user : string) : M nat :=
  let* w := get_world in
  match active_connections w !! user with
  | Some ws => ret ws
  | None => raise KeyError
  end.

(** ** WebSocket objects *)

(** Whether the transport of the object behind a handle still works. *)
Definition alive (ws : nat) (w : World) : bool :=
  match sockets w !! ws with
  | Some s => ws_alive s
  | None => false
  end.

(** The frames written so far to the object behind a handle. *)
Definition sent (ws : nat) (w : World) : list json :=
  match sockets w !! ws with
  | Some s => ws_sent s
  | None => []
  end.

(** [await websocket.accept()] *)
Definition accept (ws : nat) : M unit :=
  let* w := get_world in
  if alive ws w then ret tt else raise TransportError.

(** [await websocket.send_text(text)] *)
Definition send_text (ws : nat) (text : json) : M unit :=
  let* w := get_world in
  if alive ws w then
    modify (set_sockets
              (<[ws := {| ws_alive := true; ws_sent := sent ws w ++ [text] |}]>
                 (sockets w)))
  else raise TransportError.

(** What one call of [await websocket.receive_text()] does: it returns
    the next text frame of the peer, or raises. *)
Inductive received : Type :=
  | Text (data : string)
  | Disconnect      (* the peer closed: [WebSocketDisconnect] *)
  | ReceiveError.   (* the read raised another exception *)

Definition receive_text (r : received) : M string :=
  match r with
  | Text data => ret data
  | Disconnect => raise WebSocketDisconnect
  | ReceiveError => raise TransportError
  end.

(** ** Message history *)

Definition involves (user : string) (m : Message.t) : Prop :=
  Message.sender m = user ∨ Message.receiver m = user.

#[global] Instance involves_dec user m : Decision (involves user m).
Proof. unfold involves. apply _. Defined.

Definition by_timestamp (m1 m2 : Message.t) : Prop :=
  Message.timestamp m1 ≤ Message.timestamp m2.

#[global] Instance by_timestamp_dec m1 m2 : Decision (by_timestamp m1 m2).
Proof. unfold by_timestamp. apply _. Defined.

#[global] Instance by_timestamp_total : Total by_timestamp.
Proof. intros m1 m2. unfold by_timestamp. lia. Qed.

#[global] Instance by_timestamp_trans : Transitive by_timestamp.
Proof. intros m1 m2 m3. unfold by_timestamp. lia. Qed.

(** [db.messages.find({"$or": [{"sender": user}, {"receiver": user}]})
      .sort("timestamp", 1).to_list(length)] *)
Definition messages_find_sorted (user : string) (length : nat)
    : M (list Message.t) :=
  db_call (let* w := get_world in
           ret (take length
                  (merge_sort by_timestamp
                     (filter (involves user) (db_messages w))))).

(** [get_messages]: every stored document is one that [send_message]
    wrote, so rebuilding the [Message] objects changes nothing. *)
Definition get_messages (user : string) : M (list Message.t) :=
  let* messages := messages_find_sorted user 1000%nat in
  ret messages.

(** ** Sending *)

Section Relay.

(** The text [json.dumps({"type": "new_message",
    "message": msg_obj.dict(default=str)})], as pydantic and [json]
    compute it, or the exception they raise.  The expression is
    evaluated inside the [try] block of [send_message]. *)
Variable dumps_new_message : Message.t → Result json.

Definition send_message (msg_fresh : Fresh) (message : MessageCreate.t)
    (sender : string) : M Message.t :=
  let msg_obj :=
    Message.init msg_fresh sender (MessageCreate.receiver message)
      (MessageCreate.encrypted_content message) in
  messages_insert_one msg_obj ;;
  let* connected := registered (MessageCreate.receiver message) in
  (if connected then
     try_except
       (let* ws := connection_of (MessageCreate.receiver message) in
        let* text := lift (dumps_new_message msg_obj) in
        send_text ws text)
       (λ e, unregister (MessageCreate.receiver message))
   else ret tt) ;;
  ret msg_obj.

End Relay.

(** ** The live channel handler *)

Definition pong (data : string) : json :=
  JObj [("type", JStr "pong"); ("data", JStr data)].

(** Where a run of [websocket_endpoint] stands. *)
Inductive phase : Type := Connecting | Open | Closed.

(** The two statements before the loop. *)
Definition websocket_open (ws : nat) (user : string) : M phase :=
  accept ws ;;
  register user ws ;;
  ret Open.

(** One turn of the [while True] loop inside the [try], on the outcome
    [r] of its [receive_text] call.  The handler stays in the loop or is
    over. *)
Definition websocket_turn (ws : nat) (user : string) (r : received)
    : M phase :=
  try_except
    (let* data := receive_text r in
     send_text ws (pong data) ;;
     ret Open)
    (λ e, match e with
          | WebSocketDisconnect => unregister user ;; ret Closed
          | _ => unregister user ;; ret Closed
          end).

(** The loop on the successive outcomes of [receive_text]; when they run
    out the handler is suspended in [receive_text], still in the loop. *)
Fixpoint websocket_loop (ws : nat) (user : string) (rs : list received)
    : M phase :=
  match rs with
  | [] => ret Open
  | r :: rs' =>
      let* p := websocket_turn ws user r in
      match p with
      | Open => websocket_loop ws user rs'
      | _ => ret p
      end
  end.

Definition websocket_endpoint (ws : nat) (user : string) (rs : list received)
    : M phase :=
  websocket_open ws user ;;
  websocket_loop ws user rs.

(** ** Histories used to state and to test the claims *)

Definition not_later_than (t : Z) (m : Message.t) : Prop :=
  Message.timestamp m ≤ t.

#[global] Instance not_later_than_dec t m : Decision (not_later_than t m).
Proof. unfold not_later_than. apply _. Defined.

(** The stored messages that involve [user] and are not later than [t]. *)
Definition history_until (user : string) (t : Z) (w : World)
    : list Message.t :=
  filter (not_later_than t) (filter (involves user) (db_messages w)).

(** The notification text as the code builds it: pydantic's [dict]
    takes no keyword [default], so evaluating the argument
    [msg_obj.dict(default=str)] raises [TypeError], for every message,
    before [json.dumps] and [send_text] are called. *)
Definition dumps_raises (m : Message.t) : Result json := Raise TypeError.

(** The [i]-th message of a long conversation from Alpha to Bravo, one
    message per millisecond. *)
Definition past_message (i : nat) : Message.t :=
  Message.Build ("m" +:+ pretty i) "Alpha" "Bravo" "CIPHERTEXT"
    (1000 * Z.of_nat i).

Definition past (n : nat) : list Message.t := past_message <$> seq 0 n.

Definition world_with (messages : list Message.t) : World :=
  {| db_available := true; db_users := []; db_messages := messages;
     active_connections := ∅; sockets := ∅ |}.

(** A server with two accepted sockets [1] and [2], the second one with
    a broken transport when [second_alive] is [false]. *)
Definition world_with_sockets (second_alive : bool) : World :=
  {| db_available := true; db_users := []; db_messages := [];
     active_connections := ∅;
     sockets := {[ 1%nat := {| ws_alive := true; ws_sent := [] |};
                   2%nat := {| ws_alive := second_alive; ws_sent := [] |} ]} |}.

Definition world_down : World :=
  {| db_available := false; db_users := []; db_messages := past 3;
     active_connections := {[ "Bravo" := 1%nat ]};
     sockets := {[ 1%nat := {| ws_alive := true; ws_sent := [] |} ]} |}.

(** The world a computation leaves behind. *)
Definition exec {A} (m : M A) (w : World) : World := snd (m w).

(** ** Health check *)

(** [root] *)
Definition root : M json :=
  ret (JObj [("message", JStr "Encrypted Messenger API")]).

(** ** The endpoints at their awaits

    A call of [login] is suspended while the database looks for the
    user, and a call of [send_message] while the database stores the
    message; other calls run in between.  These are the parts of the two
    endpoints that run after the database has answered. *)

(** [login] from [existing_user = await db.users.find_one(...)] on, the
    database having answered [existing_user]. *)
Definition login_resume (user_fresh : Fresh) (token_uuid : string)
    (username : string) (existing_user : option User.t) : M LoginResponse.t :=
  (match existing_user with
   | None => users_insert_one (User.init user_fresh username)
   | Some _ => ret tt
   end) ;;
  let token := token_uuid in
  lift (LoginResponse.init (Some true) (Some (Some username)) (Some token)
          (Some ("Welcome " +:+ username +:+ "!"))).

(** [send_message] from [await db.messages.insert_one(...)] on, the
    database having stored [msg_obj]. *)
Definition send_message_push (dumps : Message.t → Result json)
    (msg_obj : Message.t) (receiver : string) : M Message.t :=
  let* connected := registered receiver in
  (if connected then
     try_except
       (let* ws := connection_of receiver in
        let* text := lift (dumps msg_obj) in
        send_text ws text)
       (λ e, unregister receiver)
   else ret tt) ;;
  ret msg_obj.

(** A suspended call: what it needs to go on. *)
Inductive suspended : Type :=
  | InLogin (user_fresh : Fresh) (token_uuid : string) (username : string)
      (existing_user : option User.t)
  | InSend (msg_obj : Message.t) (receiver : string).

(** ** The server as a whole

    What the server does, piece by piece, each piece run without
    interruption: a whole call of an HTTP endpoint; a call of [login] up
    to the answer of [find_one], or of [send_message] up to the answer
    of [insert_one], which is then suspended under a key; the rest of a
    suspended call; the opening of a live channel; one turn of the loop
    of a live channel.  The lists of pieces include some that no run of
    the server produces (a turn for a channel that was never opened);
    what holds for all lists holds for the runs. *)
Inductive request : Type :=
  | PostLogin (user_fresh : Fresh) (token_uuid : string)
      (body : LoginRequest.t)
  | GetMessages (user : string)
  | PostMessages (msg_fresh : Fresh) (body : MessageCreate.t) (sender : string)
  | GetRoot
  | WsOpen (ws : nat) (user : string)
  | WsTurn (ws : nat) (user : string) (r : received)
  | BeginLogin (key : nat) (user_fresh : Fresh) (token_uuid : string)
      (body : LoginRequest.t)
  | BeginMessages (key : nat) (msg_fresh : Fresh) (body : MessageCreate.t)
      (sender : string)
  | Resume (key : nat).

(** The state of the server and the calls that are suspended. *)
Definition Server : Type := World * gmap nat suspended.

Definition step (dumps : Message.t → Result json) (rq : request) (s : Server)
    : Server :=
  let '(w, parked) := s in
  match rq with
  | PostLogin user_fresh token_uuid body =>
      (exec (login user_fresh token_uuid body) w, parked)
  | GetMessages user => (exec (get_messages user) w, parked)
  | PostMessages msg_fresh body sender =>
      (exec (send_message dumps msg_fresh body sender) w, parked)
  | GetRoot => (exec root w, parked)
  | WsOpen ws user => (exec (websocket_open ws user) w, parked)
  | WsTurn ws user r => (exec (websocket_turn ws user r) w, parked)
  | BeginLogin key user_fresh token_uuid body =>
      match USERS !! LoginRequest.password body with
      | Some username =>
          match users_find_one username w with
          | (Ok existing_user, w') =>
              (w', <[key := InLogin user_fresh token_uuid username
                               existing_user]> parked)
          | (Raise _, w') => (w', parked)
          end
      | None => (w, parked)
      end
  | BeginMessages key msg_fresh body sender =>
      let msg_obj :=
        Message.init msg_fresh sender (MessageCreate.receiver body)
          (MessageCreate.encrypted_content body) in
      match messages_insert_one msg_obj w with
      | (Ok _, w') =>
          (w', <[key := InSend msg_obj (MessageCreate.receiver body)]> parked)
      | (Raise _, w') => (w', parked)
      end
  | Resume key =>
      match parked !! key with
      | Some (InLogin user_fresh token_uuid username existing_user) =>
          (exec (login_resume user_fresh token_uuid username existing_user) w,
           delete key parked)
      | Some (InSend msg_obj receiver) =>
          (exec (send_message_push dumps msg_obj receiver) w,
           delete key parked)
      | None => (w, parked)
      end
  end.

Definition serve_from (dumps : Message.t → Result json) (rqs : list request)
    (s : Server) : Server :=
  foldl (λ s rq, step dumps rq s) s rqs.

(** Serving requests from a state in which no call is suspended. *)
Definition serve (dumps : Message.t → Result json) (rqs : list request)
    (w : World) : World :=
  (serve_from dumps rqs (w, ∅)).1.

(** The document that a request stores in the history, if it is a send
    or the first part of one. *)
Definition posted (rq : request) : list Message.t :=
  match rq with
  | PostMessages msg_fresh body sender
  | BeginMessages _ msg_fresh body sender =>
      [Message.stored
         (Message.init msg_fresh sender (MessageCreate.receiver body)
            (MessageCreate.encrypted_content body))]
  | _ => []
  end.

(** The stored users called [username]. *)
Definition users_named (username : string) (w : World) : list User.t :=
  filter (λ u, User.username u = username) (db_users w).

(** What serving keeps true of the stored users, [w0] being the state
    the serving started from: users are only added, at the end and under
    a name of [USERS], and not under a name that had a user in [w0]. *)
Definition users_kept (w0 w : World) : Prop :=
  db_users w0 `prefix_of` db_users w
  ∧ (∀ u, u ∈ db_users w →
       u ∈ db_users w0 ∨ ∃ password, USERS !! password = Some (User.username u))
  ∧ (∀ name, users_named name w0 ≠ [] →
       users_named name w = users_named name w0).

(** What serving keeps true of the suspended logins: they are for names
    of [USERS], and those that found no user are for names without a
    user in [w0]. *)
Definition logins_kept (w0 : World) (parked : gmap nat suspended) : Prop :=
  ∀ key user_fresh token_uuid username existing_user,
    parked !! key
    = Some (InLogin user_fresh token_uuid username existing_user) →
    (∃ password, USERS !! password = Some username)
    ∧ (existing_user = None → users_named username w0 = []).

(** Timestamps strictly increasing along a list. *)
Definition strictly_earlier (m1 m2 : Message.t) : Prop :=
  Message.timestamp m1 < Message.timestamp m2.

(** A server with one user of each name and Bravo connected on
    socket 1. *)
Definition world_busy : World :=
  {| db_available := true;
     db_users := [User.Build "u1" "Alpha" 0; User.Build "u2" "Bravo" 1000];
     db_messages := past 3;
     active_connections := {[ "Bravo" := 1%nat ]};
     sockets := {[ 1%nat := {| ws_alive := true; ws_sent := [] |};
                   2%nat := {| ws_alive := false; ws_sent := [] |} ]} |}.

(** ** Proof support *)

Ltac unfold_monad :=
  unfold websocket_endpoint, websocket_open, websocket_turn, get_messages,
    messages_find_sorted, messages_insert_one, users_insert_one,
    users_find_one, db_call, receive_text, send_text, accept, connection_of,
    registered, unregister, register, exec, try_except, bind, ret, raise,
    lift, get_world, modify in *.

Lemma set_active_connections_id (w : World) :
  set_active_connections (active_connections w) w = w.
Proof. by destruct w. Qed.

Lemma alive_set_active_connections ws (m : gmap string nat) w :
  alive ws (set_active_connections m w) = alive ws w.
Proof. done. Qed.

Lemma alive_set_db_messages ws l w :
  alive ws (set_db_messages l w) = alive ws w.
Proof. done. Qed.

Lemma unregister_absent user w :
  active_connections w !! user = None → unregister user w = (Ok tt, w).
Proof.
  intros Habsent. unfold_monad.
  by rewrite (delete_id _ _ Habsent), set_active_connections_id.
Qed.

(** A turn of the loop never lets an exception escape; it ends the
    handler exactly when the read or the write failed, and then the
    user's entry is gone. *)
Lemma websocket_turn_cases ws user r w :
  (∃ data, r = Text data ∧ alive ws w = true ∧
     websocket_turn ws user r w =
       (Ok Open,
        set_sockets
          (<[ws := {| ws_alive := true; ws_sent := sent ws w ++ [pong data] |}]>
             (sockets w)) w))
  ∨ ((r = Disconnect ∨ r = ReceiveError ∨
      (∃ data, r = Text data ∧ alive ws w = false)) ∧
     websocket_turn ws user r w =
       (Ok Closed,
        set_active_connections (delete user (active_connections w)) w)).
Proof.
  destruct r as [data| |].
  - destruct (alive ws w) eqn:Halive.
    + left. exists data. unfold_monad. by rewrite Halive.
    + right. split; [eauto|]. unfold_monad. by rewrite Halive.
  - right. split; [eauto|]. done.
  - right. split; [eauto|]. done.
Qed.

(** However long it runs, the loop never raises, and a handler that is
    over has removed its user's entry. *)
Lemma websocket_loop_outcome ws user rs w :
  ∃ p w',
    websocket_loop ws user rs w = (Ok p, w')
    ∧ (p = Open ∨ (p = Closed ∧ active_connections w' !! user = None)).
Proof.
  revert w. induction rs as [|r rs IH]; intros w.
  - exists Open, w. split; [done|by left].
  - simpl. unfold bind at 1.
    destruct (websocket_turn_cases ws user r w)
      as [(d & _ & _ & ->)|[_ ->]].
    + apply IH.
    + eexists Closed, _. split; [reflexivity|]. right. split; [done|].
      apply lookup_delete_eq.
Qed.

(** * The claims *)

(** C1 (the code departs from it).  The claim: a login whose password is
    not a recognised credential gets a well-formed failure response with
    [success=false] and the message "Invalid password".  The code builds
    that response without the required [token] field, so the constructor
    raises and no response is returned: here at the password
    "wrongpassword", in any state of the server. *)
Theorem login_wrong_password_raises (user_fresh : Fresh) (token_uuid : string)
    (w : World) :
  login user_fresh token_uuid (LoginRequest.Build "wrongpassword") w
  = (Raise ValidationError, w).
Proof. reflexivity. Qed.

(** The same happens for every password outside [USERS]. *)
Lemma login_unrecognized_raises user_fresh token_uuid request w :
  USERS !! LoginRequest.password request = None →
  login user_fresh token_uuid request w = (Raise ValidationError, w).
Proof. intros Hno. unfold login. by rewrite Hno. Qed.

(** C3.  When the database is unreachable, [send_message] fails with the
    storage error and leaves the whole state as it was (no frame is
    pushed, the registry is untouched), and [get_messages] fails with
    the storage error and returns no list. *)
Theorem storage_outage_fails_cleanly (dumps : Message.t → Result json)
    (msg_fresh : Fresh) (message : MessageCreate.t) (sender user : string)
    (w : World) :
  db_available w = false →
  send_message dumps msg_fresh message sender w = (Raise StorageError, w)
  ∧ get_messages user w = (Raise StorageError, w).
Proof.
  intros Hdown. unfold send_message. unfold_monad. by rewrite Hdown.
Qed.

Lemma filter_none {A} (P : A → Prop) `{!∀ x, Decision (P x)} (l : list A) :
  Forall (λ x, ¬ P x) l → filter P l = [].
Proof.
  induction 1 as [|x l Hx _ IH]; [done|]. by rewrite filter_cons_False.
Qed.

Lemma filter_all {A} (P : A → Prop) `{!∀ x, Decision (P x)} (l : list A) :
  Forall P l → filter P l = l.
Proof.
  induction 1 as [|x l Hx _ IH]; [done|].
  rewrite filter_cons_True by done. by f_equal.
Qed.

(** In a list of entries with pairwise different keys, the entries under
    one key are that key's single entry. *)
Lemma filter_key_NoDup {V} (l : list (string * V)) (k : string) (v : V) :
  NoDup l.*1 → (k, v) ∈ l → filter (λ kv, kv.1 = k) l = [(k, v)].
Proof.
  induction l as [|[k' v'] l IH]; intros Hnd Hin.
  - by apply elem_of_nil in Hin.
  - apply NoDup_cons in Hnd as [Hfresh Hnd].
    apply elem_of_cons in Hin as [Heq|Hin].
    + injection Heq as <- <-.
      rewrite filter_cons_True by done. f_equal.
      apply filter_none, Forall_forall. intros [k2 v2] Hin2 Hk.
      simpl in Hk. subst k2.
      apply Hfresh. apply list_elem_of_fmap. by exists (k, v2).
    + rewrite filter_cons_False; [by apply IH|].
      simpl. intros ->. apply Hfresh. apply list_elem_of_fmap. by exists (k, v).
Qed.

(** C6.  The registry never holds two entries under one identity;
    registering never fails; and after registering [c1] and then [c2]
    for [X] the registry is what registering [c2] alone gives: looking
    [X] up yields [c2], and [(X, c2)] is the only entry under [X]. *)
Theorem register_supersedes (X : string) (c1 c2 : nat) (w : World) :
  NoDup (map_to_list (active_connections w)).*1
  ∧ ∃ w1 w2,
      register X c1 w = (Ok tt, w1)
      ∧ register X c2 w1 = (Ok tt, w2)
      ∧ active_connections w2 !! X = Some c2
      ∧ active_connections w2 = <[X := c2]> (active_connections w)
      ∧ filter (λ kv, kv.1 = X) (map_to_list (active_connections w2))
        = [(X, c2)]
      ∧ NoDup (map_to_list (active_connections w2)).*1.
Proof.
  split; [apply NoDup_fst_map_to_list|].
  eexists _, _. split; [reflexivity|]. split; [reflexivity|]. simpl.
  split; [apply lookup_insert_eq|].
  split; [apply insert_insert_eq|].
  split; [|apply NoDup_fst_map_to_list].
  apply filter_key_NoDup; [apply NoDup_fst_map_to_list|].
  apply elem_of_map_to_list, lookup_insert_eq.
Qed.

(** C9.  On an open channel (its transport works), a turn of the loop
    that receives the text [data] writes exactly one frame, the pong
    frame carrying [data] as received, after the frames written before;
    nothing else changes; the handler stays in its loop and goes on
    with the next read. *)
Theorem websocket_turn_pong (ws : nat) (user data : string)
    (rs : list received) (w : World) :
  alive ws w = true →
  ∃ w',
    websocket_turn ws user (Text data) w = (Ok Open, w')
    ∧ sent ws w' = sent ws w ++ [JObj [("type", JStr "pong"); ("data", JStr data)]]
    ∧ alive ws w' = true
    ∧ (∀ ws', ws' ≠ ws → sockets w' !! ws' = sockets w !! ws')
    ∧ active_connections w' = active_connections w
    ∧ db_messages w' = db_messages w
    ∧ websocket_loop ws user (Text data :: rs) w = websocket_loop ws user rs w'.
Proof.
  intros Halive.
  destruct (websocket_turn_cases ws user (Text data) w)
    as [(d & Hd & _ & Hturn)|[[?|[?|(d & _ & Hdead)]] _]]; try congruence.
  injection Hd as <-.
  eexists. split; [exact Hturn|].
  unfold sent at 1, alive at 1. simpl. rewrite lookup_insert_eq.
  repeat split.
  - intros ws' Hne. by rewrite lookup_insert_ne.
  - unfold bind at 1. by rewrite Hturn.
Qed.

(** C10.  A turn of the loop never raises.  When the peer disconnects,
    or the read fails, or the write of the pong fails, it ends the
    handler, and the handler's identity is then absent from the
    registry, everything else being as before; so it is after every
    turn, and every run of the loop, that ends the handler.
    Unregistering an identity that is absent returns normally and
    changes nothing; and unregistering never raises. *)
Theorem close_unregisters (ws : nat) (user : string) (w : World) :
  (∀ r, ∃ p w', websocket_turn ws user r w = (Ok p, w'))
  ∧ (∀ r,
       r = Disconnect ∨ r = ReceiveError
       ∨ (∃ data, r = Text data ∧ alive ws w = false) →
       ∃ w',
         websocket_turn ws user r w = (Ok Closed, w')
         ∧ active_connections w' !! user = None
         ∧ (∀ other, other ≠ user →
              active_connections w' !! other = active_connections w !! other)
         ∧ sockets w' = sockets w
         ∧ db_messages w' = db_messages w)
  ∧ (∀ r w', websocket_turn ws user r w = (Ok Closed, w') →
       active_connections w' !! user = None)
  ∧ (∀ rs w', websocket_loop ws user rs w = (Ok Closed, w') →
       active_connections w' !! user = None)
  ∧ (active_connections w !! user = None → unregister user w = (Ok tt, w))
  ∧ (∃ w', unregister user w = (Ok tt, w')).
Proof.
  repeat split.
  - intros r. destruct (websocket_turn_cases ws user r w)
      as [(d & _ & _ & ->)|[_ ->]]; eauto.
  - intros r Hr. destruct (websocket_turn_cases ws user r w)
      as [(d & -> & Halive & _)|[_ ->]].
    + destruct Hr as [?|[?|(d' & _ & Hdead)]]; congruence.
    + eexists. split; [reflexivity|]. simpl. repeat split.
      * apply lookup_delete_eq.
      * intros other Hne. by apply lookup_delete_ne.
  - intros r w' Hturn. destruct (websocket_turn_cases ws user r w)
      as [(d & _ & _ & Heq)|[_ Heq]]; rewrite Heq in Hturn.
    + discriminate.
    + injection Hturn as <-. apply lookup_delete_eq.
  - intros rs w' Hloop.
    destruct (websocket_loop_outcome ws user rs w)
      as (p & w2 & Heq & [->|[-> Hgone]]); rewrite Heq in Hloop.
    + discriminate.
    + by injection Hloop as <-.
  - apply unregister_absent.
  - by eexists.
Qed.

(** C4.  Two channels [c1] and then [c2] are opened for the identity
    [X].  The registry then holds [c2] under [X].  When the handler of
    the first channel ends, because its peer disconnects or its read
    fails, it removes the entry under [X], although that entry is the
    second channel's and the second channel still works.  More
    generally, in any state where [X] is registered with [c2], a turn of
    the handler of [c1] that ends it, for whatever reason, leaves [X]
    unregistered and the sockets as they were. *)
Theorem stale_handler_unregisters_successor (X : string) (c1 c2 : nat)
    (w : World) :
  (alive c1 w = true →
   alive c2 w = true →
   ∃ w1 w2,
     websocket_open c1 X w = (Ok Open, w1)
     ∧ websocket_open c2 X w1 = (Ok Open, w2)
     ∧ active_connections w2 !! X = Some c2
     ∧ ∀ r, r = Disconnect ∨ r = ReceiveError →
         ∃ w3,
           websocket_turn c1 X r w2 = (Ok Closed, w3)
           ∧ active_connections w3 !! X = None
           ∧ alive c2 w3 = true)
  ∧ (∀ r w',
       active_connections w !! X = Some c2 →
       websocket_turn c1 X r w = (Ok Closed, w') →
       active_connections w' !! X = None ∧ sockets w' = sockets w).
Proof.
  split.
  - intros H1 H2. eexists _, _.
    split. { unfold_monad. rewrite H1. reflexivity. }
    split. { unfold_monad. rewrite alive_set_active_connections, H2. reflexivity. }
    split. { simpl. apply lookup_insert_eq. }
    intros r Hr. eexists.
    split. { destruct Hr as [->| ->]; reflexivity. }
    split. { simpl. apply lookup_delete_eq. }
    exact H2.
  - intros r w' _ Hturn.
    destruct (websocket_turn_cases c1 X r w)
      as [(d & _ & _ & Heq)|[_ Heq]]; rewrite Heq in Hturn.
    + discriminate.
    + injection Hturn as <-. split; [apply lookup_delete_eq|done].
Qed.

(** What [send_message] does when the database takes the write: the
    message is appended to the history and returned, and the world
    differs further only by the outcome of the push. *)
Lemma send_message_stored (dumps : Message.t → Result json) msg_fresh message
    sender w :
  db_available w = true →
  let receiver := MessageCreate.receiver message in
  let msg :=
    Message.init msg_fresh sender receiver
      (MessageCreate.encrypted_content message) in
  let w1 := set_db_messages (db_messages w ++ [Message.stored msg]) w in
  send_message dumps msg_fresh message sender w
  = (Ok msg,
     match active_connections w !! receiver with
     | None => w1
     | Some ws =>
         match dumps msg with
         | Ok text =>
             if alive ws w then
               set_sockets
                 (<[ws := {| ws_alive := true;
                             ws_sent := sent ws w ++ [text] |}]> (sockets w))
                 w1
             else
               set_active_connections
                 (delete receiver (active_connections w)) w1
         | Raise _ =>
             set_active_connections
               (delete receiver (active_connections w)) w1
         end
     end).
Proof.
  intros Hup receiver msg w1. unfold send_message. unfold_monad.
  rewrite Hup. simpl. fold receiver. fold msg.
  destruct (active_connections w !! receiver) as [ws|] eqn:Hreg; simpl.
  - rewrite Hreg.
    destruct (dumps msg) as [text|e]; simpl; [|done].
    rewrite alive_set_db_messages.
    by destruct (alive ws w) eqn:Halive.
  - done.
Qed.

(** C5.  Whenever the database takes the write, [send_message] returns
    the message it stored.  With no channel registered for the receiver
    the registry and the sockets are as before.  With a channel
    registered whose push fails, because the transport is broken or
    because building the notification text raises, the receiver's entry
    is removed from the registry (and nothing else is), and the result
    is still the stored message. *)
Theorem send_message_best_effort (dumps : Message.t → Result json)
    (msg_fresh : Fresh) (message : MessageCreate.t) (sender : string)
    (w : World) :
  db_available w = true →
  let receiver := MessageCreate.receiver message in
  let msg :=
    Message.init msg_fresh sender receiver
      (MessageCreate.encrypted_content message) in
  ∃ w',
    send_message dumps msg_fresh message sender w = (Ok msg, w')
    ∧ db_messages w' = db_messages w ++ [Message.stored msg]
    ∧ (active_connections w !! receiver = None →
         active_connections w' = active_connections w
         ∧ sockets w' = sockets w)
    ∧ (∀ ws, active_connections w !! receiver = Some ws →
         alive ws w = false ∨ (∃ e, dumps msg = Raise e) →
         active_connections w' = delete receiver (active_connections w)
         ∧ active_connections w' !! receiver = None
         ∧ sockets w' = sockets w).
Proof.
  intros Hup receiver msg.
  eexists. split; [by apply send_message_stored|].
  fold receiver msg.
  destruct (active_connections w !! receiver) as [ws|] eqn:Hreg.
  - destruct (dumps msg) as [text|e] eqn:Hdumps.
    + destruct (alive ws w) eqn:Halive.
      * split; [done|]. split; [done|].
        intros ws' [= <-] [?|[e ?]]; congruence.
      * split; [done|]. split; [done|].
        intros _ _ _. simpl. by rewrite lookup_delete_eq.
    + split; [done|]. split; [done|].
      intros _ _ _. simpl. by rewrite lookup_delete_eq.
  - split; [done|]. split; [done|]. intros ws [=].
Qed.

(** C8 (as amended).  [send_message] does not look at the identity
    strings: for every sender and every receiver, empty or not, known or
    not, the request is accepted whenever the database takes the write,
    and the message, carrying those identities as given, is appended to
    the history. *)
Theorem send_message_accepts_any_identity (dumps : Message.t → Result json)
    (msg_fresh : Fresh) (message : MessageCreate.t) (sender : string)
    (w : World) :
  db_available w = true →
  ∃ msg w',
    send_message dumps msg_fresh message sender w = (Ok msg, w')
    ∧ Message.sender msg = sender
    ∧ Message.receiver msg = MessageCreate.receiver message
    ∧ Message.encrypted_content msg = MessageCreate.encrypted_content message
    ∧ db_messages w' = db_messages w ++ [Message.stored msg].
Proof.
  intros Hup. eexists _, _. split; [by apply send_message_stored|].
  repeat split.
  destruct (active_connections w !! _); [|done].
  destruct (dumps _); [|done]. by destruct (alive _ _).
Qed.

(** C7 (as amended).  When the database answers, [get_messages] leaves
    the state as it is and returns the stored messages that involve the
    identity, in non-decreasing order of timestamp, up to the first 1000
    of them: what it returns together with what it leaves out is the set
    of stored messages whose sender or receiver is the identity, no
    message left out is older than a returned one, and when at most 1000
    stored messages involve the identity none is left out. *)
Theorem get_messages_oldest_first (user : string) (w : World) :
  db_available w = true →
  let stored := filter (involves user) (db_messages w) in
  ∃ l rest,
    get_messages user w = (Ok l, w)
    ∧ l ++ rest ≡ₚ stored
    ∧ StronglySorted by_timestamp l
    ∧ (∀ m m', m ∈ l → m' ∈ rest → by_timestamp m m')
    ∧ length l = min 1000 (length stored)
    ∧ ((length stored ≤ 1000)%nat → rest = [] ∧ l ≡ₚ stored).
Proof.
  intros Hup stored.
  set (sorted := merge_sort by_timestamp stored).
  assert (Hperm : sorted ≡ₚ stored) by apply merge_sort_Permutation.
  assert (Hsorted : StronglySorted by_timestamp sorted)
    by apply (StronglySorted_merge_sort _).
  exists (take 1000 sorted), (drop 1000 sorted).
  split. { unfold_monad. by rewrite Hup. }
  rewrite <- (take_drop 1000 sorted) in Hsorted.
  apply StronglySorted_app in Hsorted as (Hcross & Htake & _).
  split. { by rewrite take_drop. }
  split; [done|]. split; [done|].
  split. { by rewrite length_take, Hperm. }
  intros Hshort. rewrite <- Hperm in Hshort.
  split. { by apply drop_ge. }
  by rewrite take_ge.
Qed.

(** Where a newly appended message lands in the sorted list: after
    messages that are not later than it.  So when fewer than [n] of the
    older messages are not later, it is among the first [n]. *)
Lemma take_sorted_snoc (n : nat) (l : list Message.t) (msg : Message.t) :
  (length (filter (not_later_than (Message.timestamp msg)) l) < n)%nat →
  ∃ before after,
    take n (merge_sort by_timestamp (l ++ [msg])) = before ++ msg :: after
    ∧ before ⊆ l ∧ after ⊆ l.
Proof.
  intros Hroom.
  set (sorted := merge_sort by_timestamp (l ++ [msg])).
  assert (Hperm : sorted ≡ₚ l ++ [msg]) by apply merge_sort_Permutation.
  assert (Hsorted : StronglySorted by_timestamp sorted)
    by apply (StronglySorted_merge_sort _).
  assert (Hin : msg ∈ sorted).
  { rewrite Hperm. apply elem_of_app. right. by apply list_elem_of_singleton. }
  apply list_elem_of_split in Hin as (A & B & HAB).
  rewrite HAB in Hperm, Hsorted |- *.
  assert (Hrest : A ++ B ≡ₚ l).
  { apply (Permutation_cons_inv (a := msg)).
    by rewrite Permutation_middle, Hperm, Permutation_app_comm. }
  assert (HA : Forall (not_later_than (Message.timestamp msg)) A).
  { apply Forall_forall. intros a Ha.
    apply (StronglySorted_app_1_elem_of _ _ _ a msg Hsorted Ha).
    by left. }
  assert (Hlen : (length A < n)%nat).
  { eapply Nat.le_lt_trans; [|exact Hroom].
    rewrite <- Hrest, filter_app, length_app, (filter_all _ A HA). lia. }
  destruct (n - length A)%nat as [|k] eqn:Hk; [lia|].
  exists A, (take k B).
  split.
  - by rewrite take_app, (take_ge A), Hk by lia.
  - split.
    + intros x Hx. rewrite <- Hrest. apply elem_of_app. by left.
    + intros x Hx. rewrite <- Hrest. apply elem_of_app. right.
      by apply (subseteq_take _ _ x) in Hx.
Qed.

(** What [get_messages] returns for an identity of the message that
    [send_message] just stored. *)
Lemma get_messages_after_insert (user : string) (msg : Message.t) (w w' : World) :
  db_available w' = true →
  db_messages w' = db_messages w ++ [msg] →
  involves user msg →
  (∀ m, m ∈ db_messages w → Message.id m ≠ Message.id msg) →
  (length (history_until user (Message.timestamp msg) w) < 1000)%nat →
  ∃ l,
    get_messages user w' = (Ok l, w')
    ∧ filter (λ m, Message.id m = Message.id msg) l = [msg].
Proof.
  intros Hup Hdb Hinv Hfresh Hroom.
  destruct (take_sorted_snoc 1000 _ msg Hroom)
    as (before & after & Htake & Hbefore & Hafter).
  eexists. split.
  { unfold_monad. rewrite Hup, Hdb, filter_app, filter_singleton_True by done.
    reflexivity. }
  rewrite Htake, filter_app, filter_cons_True by done.
  assert (Hold : ∀ part, part ⊆ filter (involves user) (db_messages w) →
            filter (λ m, Message.id m = Message.id msg) part = []).
  { intros part Hpart. apply filter_none, Forall_forall. intros m Hm.
    apply Hfresh. apply Hpart in Hm.
    by apply list_elem_of_filter in Hm as [_ Hm]. }
  by rewrite !Hold.
Qed.

(** C2 (as amended).  Let the database take the write, the new id be
    different from the stored ids, and fewer than 1000 stored messages
    involve the sender without being later than the new message as it
    is stored, and likewise for the receiver.  Then [send_message]
    returns a message with the given sender, receiver and content, and
    [get_messages] for the sender and for the receiver each return a
    list in which exactly one message carries the new id: the stored
    document of the message, which has the given sender, receiver and
    content, and the creation time cut to milliseconds. *)
Theorem send_then_get_messages (dumps : Message.t → Result json)
    (msg_fresh : Fresh) (message : MessageCreate.t) (sender : string)
    (w : World) :
  db_available w = true →
  (∀ m, m ∈ db_messages w → Message.id m ≠ fresh_uuid msg_fresh) →
  (length (history_until sender (bson_datetime (fresh_utcnow msg_fresh)) w)
   < 1000)%nat →
  (length (history_until (MessageCreate.receiver message)
             (bson_datetime (fresh_utcnow msg_fresh)) w) < 1000)%nat →
  ∃ msg fetched w' for_sender for_receiver,
    send_message dumps msg_fresh message sender w = (Ok msg, w')
    ∧ Message.sender msg = sender
    ∧ Message.receiver msg = MessageCreate.receiver message
    ∧ Message.encrypted_content msg = MessageCreate.encrypted_content message
    ∧ get_messages sender w' = (Ok for_sender, w')
    ∧ filter (λ m, Message.id m = Message.id msg) for_sender = [fetched]
    ∧ get_messages (MessageCreate.receiver message) w' = (Ok for_receiver, w')
    ∧ filter (λ m, Message.id m = Message.id msg) for_receiver = [fetched]
    ∧ Message.id fetched = Message.id msg
    ∧ Message.sender fetched = sender
    ∧ Message.receiver fetched = MessageCreate.receiver message
    ∧ Message.encrypted_content fetched
      = MessageCreate.encrypted_content message
    ∧ Message.timestamp fetched = bson_datetime (Message.timestamp msg).
Proof.
  intros Hup Hfresh Hsender Hreceiver.
  pose proof (send_message_stored dumps msg_fresh message sender w Hup) as Hsend.
  simpl in Hsend.
  set (msg := Message.init msg_fresh sender (MessageCreate.receiver message)
                (MessageCreate.encrypted_content message)) in *.
  match type of Hsend with _ = (_, ?w1) => set (w' := w1) in * end.
  assert (Hup' : db_available w' = true).
  { subst w'. destruct (active_connections w !! _); [|done].
    destruct (dumps msg); [|done]. by destruct (alive _ _). }
  assert (Hdb : db_messages w' = db_messages w ++ [Message.stored msg]).
  { subst w'. destruct (active_connections w !! _); [|done].
    destruct (dumps msg); [|done]. by destruct (alive _ _). }
  destruct (get_messages_after_insert sender (Message.stored msg) w w')
    as (ls & Hls & Hls1); [done|done|by left|done|done|].
  destruct (get_messages_after_insert (MessageCreate.receiver message)
              (Message.stored msg) w w')
    as (lr & Hlr & Hlr1); [done|done|by right|done|done|].
  exists msg, (Message.stored msg), w', ls, lr. done.
Qed.

(** * The handler on concrete runs *)

Example websocket_endpoint_hello :
  ∃ w',
    websocket_endpoint 1 "Alpha" [Text "hello"] (world_with_sockets true)
    = (Ok Open, w')
    ∧ active_connections w' !! "Alpha" = Some 1%nat
    ∧ sent 1 w' = [JObj [("type", JStr "pong"); ("data", JStr "hello")]].
Proof. eexists. split; [reflexivity|]. split; reflexivity. Qed.

Example websocket_endpoint_hello_then_disconnect :
  ∃ w',
    websocket_endpoint 1 "Alpha" [Text "hello"; Disconnect; Text "late"]
      (world_with_sockets true)
    = (Ok Closed, w')
    ∧ active_connections w' !! "Alpha" = None
    ∧ sent 1 w' = [JObj [("type", JStr "pong"); ("data", JStr "hello")]].
Proof. eexists. split; [reflexivity|]. split; reflexivity. Qed.

Example websocket_endpoint_accept_fails :
  websocket_endpoint 2 "Bravo" [Text "hello"] (world_with_sockets false)
  = (Raise TransportError, world_with_sockets false).
Proof. reflexivity. Qed.

Example send_message_to_connected_receiver :
  let w := exec (register "Bravo" 1) (world_with_sockets true) in
  let w' :=
    exec (send_message dumps_raises {| fresh_uuid := "new"; fresh_utcnow := 7250 |}
            (MessageCreate.Build "Bravo" "CIPHERTEXT_1") "Alpha") w in
  sent 1 w' = []
  ∧ active_connections w' !! "Bravo" = None
  ∧ db_messages w' = [Message.Build "new" "Alpha" "Bravo" "CIPHERTEXT_1" 7000].
Proof. repeat split. Qed.

Example login_alpha :
  fst (login {| fresh_uuid := "u"; fresh_utcnow := 0 |} "tok"
         (LoginRequest.Build "alphabravocharlie") (world_with []))
  = Ok (LoginResponse.Build true (Some "Alpha") "tok" "Welcome Alpha!").
Proof. reflexivity. Qed.

(** * The claims on concrete runs *)

(** C2, the claim as it stands fails: the history holds 1000 messages
    between Alpha and Bravo, all older than the one Alpha now sends to
    Bravo; the message is stored, and [get_messages] returns, for Alpha
    and for Bravo, the 1000 old messages without it. *)
Lemma send_then_get_messages_beyond_1000 :
  let msg := Message.Build "new" "Alpha" "Bravo" "CIPHERTEXT_1" 1000000 in
  let w' := world_with (past 1000 ++ [msg]) in
  send_message dumps_raises {| fresh_uuid := "new"; fresh_utcnow := 1000000 |}
    (MessageCreate.Build "Bravo" "CIPHERTEXT_1") "Alpha"
    (world_with (past 1000))
  = (Ok msg, w')
  ∧ get_messages "Alpha" w' = (Ok (past 1000), w')
  ∧ get_messages "Bravo" w' = (Ok (past 1000), w')
  ∧ msg ∉ past 1000.
Proof.
  intros msg w'. split; [|split; [|split]].
  - vm_compute. reflexivity.
  - vm_compute. reflexivity.
  - vm_compute. reflexivity.
  - apply (bool_decide_unpack _). vm_compute. exact I.
Qed.

(** C2 as amended, on a run: Alpha sends to Bravo after three earlier
    messages, 250 microseconds into the fourth millisecond. *)
Lemma send_then_get_messages_witness :
  ∃ msg fetched w' for_sender for_receiver,
    send_message dumps_raises {| fresh_uuid := "new"; fresh_utcnow := 3250 |}
      (MessageCreate.Build "Bravo" "CIPHERTEXT_1") "Alpha" (world_with (past 3))
    = (Ok msg, w')
    ∧ Message.sender msg = "Alpha"
    ∧ Message.receiver msg = "Bravo"
    ∧ Message.encrypted_content msg = "CIPHERTEXT_1"
    ∧ get_messages "Alpha" w' = (Ok for_sender, w')
    ∧ filter (λ m, Message.id m = Message.id msg) for_sender = [fetched]
    ∧ get_messages "Bravo" w' = (Ok for_receiver, w')
    ∧ filter (λ m, Message.id m = Message.id msg) for_receiver = [fetched]
    ∧ Message.id fetched = Message.id msg
    ∧ Message.sender fetched = "Alpha"
    ∧ Message.receiver fetched = "Bravo"
    ∧ Message.encrypted_content fetched = "CIPHERTEXT_1"
    ∧ Message.timestamp fetched = bson_datetime (Message.timestamp msg).
Proof.
  apply (send_then_get_messages dumps_raises
           {| fresh_uuid := "new"; fresh_utcnow := 3250 |}
           (MessageCreate.Build "Bravo" "CIPHERTEXT_1") "Alpha"
           (world_with (past 3))).
  - reflexivity.
  - apply Forall_forall. apply (bool_decide_unpack _). vm_compute. exact I.
  - apply Nat.ltb_lt. vm_compute. reflexivity.
  - apply Nat.ltb_lt. vm_compute. reflexivity.
Defined.

(** C3 on a run: the database is down while Bravo is connected. *)
Lemma storage_outage_witness :
  send_message dumps_raises {| fresh_uuid := "new"; fresh_utcnow := 3250 |}
    (MessageCreate.Build "Bravo" "CIPHERTEXT_1") "Alpha" world_down
  = (Raise StorageError, world_down)
  ∧ get_messages "Alpha" world_down = (Raise StorageError, world_down).
Proof.
  apply (storage_outage_fails_cleanly dumps_raises
           {| fresh_uuid := "new"; fresh_utcnow := 3250 |}
           (MessageCreate.Build "Bravo" "CIPHERTEXT_1") "Alpha" "Alpha"
           world_down).
  reflexivity.
Defined.

(** C4 on a run: sockets 1 and 2 are opened for Alpha, then the peer of
    socket 1 disconnects. *)
Lemma stale_handler_witness :
  ∃ w1 w2 w3,
    websocket_open 1 "Alpha" (world_with_sockets true) = (Ok Open, w1)
    ∧ websocket_open 2 "Alpha" w1 = (Ok Open, w2)
    ∧ active_connections w2 !! "Alpha" = Some 2%nat
    ∧ websocket_turn 1 "Alpha" Disconnect w2 = (Ok Closed, w3)
    ∧ active_connections w3 !! "Alpha" = None
    ∧ alive 2 w3 = true.
Proof.
  destruct (stale_handler_unregisters_successor "Alpha" 1 2
              (world_with_sockets true)) as [Hscenario _].
  destruct Hscenario as (w1 & w2 & Hopen1 & Hopen2 & Hreg & Hend);
    [reflexivity|reflexivity|].
  destruct (Hend Disconnect) as (w3 & Hturn & Hgone & Halive);
    [left; reflexivity|].
  exists w1, w2, w3.
  split; [exact Hopen1|]. split; [exact Hopen2|]. split; [exact Hreg|].
  split; [exact Hturn|]. split; [exact Hgone|exact Halive].
Defined.

(** C5 on a run: Bravo is registered with socket 2, whose transport is
    broken, when Alpha sends. *)
Lemma send_message_best_effort_witness :
  let w := exec (register "Bravo" 2) (world_with_sockets false) in
  let msg := Message.Build "new" "Alpha" "Bravo" "CIPHERTEXT_1" 7250 in
  ∃ w',
    send_message dumps_raises {| fresh_uuid := "new"; fresh_utcnow := 7250 |}
      (MessageCreate.Build "Bravo" "CIPHERTEXT_1") "Alpha" w = (Ok msg, w')
    ∧ db_messages w' = [Message.stored msg]
    ∧ active_connections w' !! "Bravo" = None.
Proof.
  intros w msg.
  destruct (send_message_best_effort dumps_raises
              {| fresh_uuid := "new"; fresh_utcnow := 7250 |}
              (MessageCreate.Build "Bravo" "CIPHERTEXT_1") "Alpha" w)
    as (w' & Hsend & Hdb & _ & Hfail); [reflexivity|].
  destruct (Hfail 2%nat) as (_ & Hgone & _);
    [reflexivity|left; reflexivity|].
  exists w'. split; [exact Hsend|]. split; [exact Hdb|exact Hgone].
Defined.

(** C7, the claim as it stands fails: 1001 stored messages involve
    Alpha; [get_messages] returns the 1000 oldest, and the newest stored
    message is not among them. *)
Lemma get_messages_beyond_1000 :
  let w := world_with (past 1001) in
  past_message 1000 ∈ db_messages w
  ∧ involves "Alpha" (past_message 1000)
  ∧ get_messages "Alpha" w = (Ok (past 1000), w)
  ∧ past_message 1000 ∉ past 1000.
Proof.
  intros w. split; [|split; [|split]].
  - apply (bool_decide_unpack _). vm_compute. exact I.
  - left. reflexivity.
  - vm_compute. reflexivity.
  - apply (bool_decide_unpack _). vm_compute. exact I.
Qed.

(** C7 as amended, on a run: three stored messages involve Alpha. *)
Lemma get_messages_witness :
  ∃ l rest,
    get_messages "Alpha" (world_with (past 3)) = (Ok l, world_with (past 3))
    ∧ l ++ rest ≡ₚ past 3
    ∧ StronglySorted by_timestamp l
    ∧ (∀ m m', m ∈ l → m' ∈ rest → by_timestamp m m')
    ∧ length l = 3%nat
    ∧ ((3 ≤ 1000)%nat → rest = [] ∧ l ≡ₚ past 3).
Proof.
  apply (get_messages_oldest_first "Alpha" (world_with (past 3))).
  reflexivity.
Defined.

(** C8, the claim as it stands fails: a send to the empty receiver, and
    a send from the empty sender, are accepted and stored. *)
Lemma send_message_empty_identity_accepted :
  (let msg := Message.Build "new" "Alpha" "" "CIPHERTEXT_1" 7000 in
   send_message dumps_raises {| fresh_uuid := "new"; fresh_utcnow := 7000 |}
     (MessageCreate.Build "" "CIPHERTEXT_1") "Alpha" (world_with [])
   = (Ok msg, world_with [msg]))
  ∧ (let msg := Message.Build "new" "" "Bravo" "CIPHERTEXT_1" 7000 in
     send_message dumps_raises {| fresh_uuid := "new"; fresh_utcnow := 7000 |}
       (MessageCreate.Build "Bravo" "CIPHERTEXT_1") "" (world_with [])
     = (Ok msg, world_with [msg])).
Proof. split; reflexivity. Qed.

(** C8 as amended, on a run: Alpha sends to an identity never seen. *)
Lemma send_message_accepts_witness :
  ∃ msg w',
    send_message dumps_raises {| fresh_uuid := "new"; fresh_utcnow := 7250 |}
      (MessageCreate.Build "" "CIPHERTEXT_1") "Alpha" (world_with (past 3))
    = (Ok msg, w')
    ∧ Message.sender msg = "Alpha"
    ∧ Message.receiver msg = ""
    ∧ Message.encrypted_content msg = "CIPHERTEXT_1"
    ∧ db_messages w' = past 3 ++ [Message.stored msg].
Proof.
  apply (send_message_accepts_any_identity dumps_raises
           {| fresh_uuid := "new"; fresh_utcnow := 7250 |}
           (MessageCreate.Build "" "CIPHERTEXT_1") "Alpha"
           (world_with (past 3))).
  reflexivity.
Defined.

(** C9 on a run: the channel of Alpha receives "hello". *)
Lemma websocket_turn_pong_witness :
  ∃ w',
    websocket_turn 1 "Alpha" (Text "hello") (world_with_sockets true)
    = (Ok Open, w')
    ∧ sent 1 w' = [JObj [("type", JStr "pong"); ("data", JStr "hello")]]
    ∧ alive 1 w' = true.
Proof.
  destruct (websocket_turn_pong 1 "Alpha" "hello" [] (world_with_sockets true))
    as (w' & Hturn & Hsent & Halive & _); [reflexivity|].
  exists w'. split; [exact Hturn|]. split; [exact Hsent|exact Halive].
Defined.

(** C10 on a run: Alpha is registered with socket 1 and the peer
    disconnects; and Bravo, who is absent, is unregistered. *)
Lemma close_unregisters_witness :
  let w := exec (register "Alpha" 1) (world_with_sockets true) in
  (∃ w',
     websocket_turn 1 "Alpha" Disconnect w = (Ok Closed, w')
     ∧ active_connections w' !! "Alpha" = None)
  ∧ unregister "Bravo" w = (Ok tt, w).
Proof.
  intros w.
  destruct (close_unregisters 1 "Alpha" w) as (_ & Hclose & _).
  destruct (close_unregisters 1 "Bravo" w) as (_ & _ & _ & _ & Habsent & _).
  destruct (Hclose Disconnect) as (w' & Hturn & Hgone & _);
    [left; reflexivity|].
  split.
  - exists w'. split; [exact Hturn|exact Hgone].
  - apply Habsent. reflexivity.
Defined.

(** * Further properties of the endpoints *)

(** ** [login] *)

(** What [login] does for a recognised password when the database
    answers. *)
Lemma login_recognised user_fresh token_uuid request username w :
  USERS !! LoginRequest.password request = Some username →
  db_available w = true →
  login user_fresh token_uuid request w
  = (Ok (LoginResponse.Build true (Some username) token_uuid
           ("Welcome " +:+ username +:+ "!")),
     match users_named username w with
     | [] =>
         set_db_users
           (db_users w ++ [User.stored (User.init user_fresh username)]) w
     | _ :: _ => w
     end).
Proof.
  intros Hknown Hup. unfold login, users_named. rewrite Hknown. unfold_monad.
  rewrite Hup. simpl.
  destruct (filter _ (db_users w)) as [|u us]; simpl; [|done].
  by rewrite Hup.
Qed.

Lemma login_recognised_down user_fresh token_uuid request username w :
  USERS !! LoginRequest.password request = Some username →
  db_available w = false →
  login user_fresh token_uuid request w = (Raise StorageError, w).
Proof.
  intros Hknown Hdown. unfold login. rewrite Hknown. unfold_monad.
  by rewrite Hdown.
Qed.

(** X1.  A login with a recognised password, when the database answers,
    returns the success response: the user of that password, the token
    that [uuid4] produced, and the welcome message.  The messages, the
    registry and the sockets are as before, and afterwards a user of
    that name is stored. *)
Theorem login_success (user_fresh : Fresh) (token_uuid : string)
    (request : LoginRequest.t) (username : string) (w : World) :
  USERS !! LoginRequest.password request = Some username →
  db_available w = true →
  ∃ w',
    login user_fresh token_uuid request w
    = (Ok (LoginResponse.Build true (Some username) token_uuid
             ("Welcome " +:+ username +:+ "!")), w')
    ∧ users_named username w' ≠ []
    ∧ db_messages w' = db_messages w
    ∧ active_connections w' = active_connections w
    ∧ sockets w' = sockets w.
Proof.
  intros Hknown Hup. eexists. split; [by apply login_recognised|].
  unfold users_named.
  destruct (filter _ (db_users w)) as [|u us] eqn:Hnamed; simpl.
  - split; [|done]. rewrite filter_app, Hnamed, filter_cons_True by done.
    done.
  - split; [|done]. by rewrite Hnamed.
Qed.

(** X2.  [login] never returns a response that reports a failure: when
    it returns a response at all, the password is one of [USERS], the
    database answered, and the response says success and names the user
    of that password. *)
Theorem login_response_is_success (user_fresh : Fresh) (token_uuid : string)
    (request : LoginRequest.t) (response : LoginResponse.t) (w w' : World) :
  login user_fresh token_uuid request w = (Ok response, w') →
  LoginResponse.success response = true
  ∧ db_available w = true
  ∧ ∃ username,
      USERS !! LoginRequest.password request = Some username
      ∧ LoginResponse.user response = Some username.
Proof.
  intros Hlogin.
  destruct (USERS !! LoginRequest.password request) as [username|] eqn:Hknown.
  - destruct (db_available w) eqn:Hup.
    + rewrite (login_recognised _ _ _ username) in Hlogin by done.
      injection Hlogin as <- _. eauto.
    + by rewrite (login_recognised_down _ _ _ username) in Hlogin.
  - by rewrite login_unrecognized_raises in Hlogin.
Qed.

(** X3.  The password is checked before the database is touched: with
    the database down, a recognised password ends in the storage error
    and an unrecognised one in the validation error, and in both cases
    the state is unchanged. *)
Theorem login_database_down (user_fresh : Fresh) (token_uuid : string)
    (request : LoginRequest.t) (w : World) :
  db_available w = false →
  login user_fresh token_uuid request w
  = (Raise (match USERS !! LoginRequest.password request with
            | Some _ => StorageError
            | None => ValidationError
            end), w).
Proof.
  intros Hdown.
  destruct (USERS !! LoginRequest.password request) as [username|] eqn:Hknown.
  - by apply (login_recognised_down _ _ _ username).
  - by apply login_unrecognized_raises.
Qed.

(** X4.  [login] stores a user only when none of that name is stored:
    the first login of a name appends one user record, built from the
    name (with the creation time as the database keeps it), and a login
    of that name that follows, with whatever fresh values, leaves the
    stored users as they are. *)
Theorem login_creates_user_once (fresh1 fresh2 : Fresh) (token1 token2 : string)
    (request : LoginRequest.t) (username : string) (w : World) :
  USERS !! LoginRequest.password request = Some username →
  db_available w = true →
  let w1 := exec (login fresh1 token1 request) w in
  let w2 := exec (login fresh2 token2 request) w1 in
  (users_named username w = [] →
     db_users w1 = db_users w ++ [User.stored (User.init fresh1 username)])
  ∧ (users_named username w ≠ [] → db_users w1 = db_users w)
  ∧ db_users w2 = db_users w1
  ∧ length (users_named username w1)
    = Nat.max 1 (length (users_named username w)).
Proof.
  intros Hknown Hup w1 w2.
  assert (Hw1 : w1 = match users_named username w with
                     | [] => set_db_users
                               (db_users w
                                ++ [User.stored (User.init fresh1 username)])
                               w
                     | _ :: _ => w
                     end).
  { subst w1. unfold exec. by rewrite (login_recognised _ _ _ username). }
  assert (Hup1 : db_available w1 = true).
  { rewrite Hw1. by destruct (users_named username w). }
  assert (Hlen : length (users_named username w1)
                 = Nat.max 1 (length (users_named username w))).
  { rewrite Hw1. destruct (users_named username w) as [|u us] eqn:Hnamed.
    - unfold users_named in *. simpl.
      rewrite filter_app, Hnamed, filter_cons_True by done. done.
    - rewrite Hnamed. simpl. lia. }
  split; [|split; [|split]].
  - intros Hnone. by rewrite Hw1, Hnone.
  - intros Hsome. rewrite Hw1. by destruct (users_named username w).
  - subst w2. unfold exec.
    rewrite (login_recognised _ _ _ username) by done.
    destruct (users_named username w1) as [|u us] eqn:Hnamed1; [|done].
    simpl in Hlen. lia.
  - exact Hlen.
Qed.

(** ** [send_message] *)

Lemma send_message_down (dumps : Message.t → Result json) msg_fresh message
    sender w :
  db_available w = false →
  send_message dumps msg_fresh message sender w = (Raise StorageError, w).
Proof. intros Hdown. unfold send_message. unfold_monad. by rewrite Hdown. Qed.

Lemma send_message_split (dumps : Message.t → Result json) msg_fresh message
    sender :
  send_message dumps msg_fresh message sender
  = (let msg_obj :=
       Message.init msg_fresh sender (MessageCreate.receiver message)
         (MessageCreate.encrypted_content message) in
     messages_insert_one msg_obj ;;
     send_message_push dumps msg_obj (MessageCreate.receiver message)).
Proof. reflexivity. Qed.

Lemma login_split user_fresh token_uuid request :
  login user_fresh token_uuid request
  = match USERS !! LoginRequest.password request with
    | Some username =>
        let* existing_user := users_find_one username in
        login_resume user_fresh token_uuid username existing_user
    | None =>
        lift (LoginResponse.init (Some false) None None
                (Some "Invalid password"))
    end.
Proof. reflexivity. Qed.

(** What the part of [send_message] after the write does. *)
Lemma send_message_push_run (dumps : Message.t → Result json) msg receiver w :
  send_message_push dumps msg receiver w
  = (Ok msg,
     match active_connections w !! receiver with
     | None => w
     | Some ws =>
         match dumps msg with
         | Ok text =>
             if alive ws w then
               set_sockets
                 (<[ws := {| ws_alive := true;
                             ws_sent := sent ws w ++ [text] |}]> (sockets w))
                 w
             else
               set_active_connections
                 (delete receiver (active_connections w)) w
         | Raise _ =>
             set_active_connections
               (delete receiver (active_connections w)) w
         end
     end).
Proof.
  unfold send_message_push. unfold_monad. simpl.
  destruct (active_connections w !! receiver) as [ws|] eqn:Hreg; simpl.
  - rewrite Hreg. destruct (dumps msg) as [text|e]; simpl; [|done].
    by destruct (alive ws w) eqn:Halive.
  - done.
Qed.

(** The cases of [send_message]: on the database, then on the registry,
    the text and the transport. *)
Ltac send_message_cases dumps msg_fresh message sender w :=
  let Hup := fresh "Hup" in
  let Hreg := fresh "Hreg" in
  let Hdumps := fresh "Hdumps" in
  let Halive := fresh "Halive" in
  unfold exec;
  destruct (db_available w) eqn:Hup;
    [ rewrite (send_message_stored dumps msg_fresh message sender w Hup);
      cbv zeta; cbn [snd fst];
      destruct (active_connections w !! MessageCreate.receiver message)
        as [?ws|] eqn:Hreg;
        [ destruct (dumps (Message.init msg_fresh sender
                             (MessageCreate.receiver message)
                             (MessageCreate.encrypted_content message)))
            as [?text|?e] eqn:Hdumps;
            [ match goal with
              | |- context [alive ?s w] => destruct (alive s w) eqn:Halive
              end
            | ]
        | ]
    | rewrite (send_message_down dumps msg_fresh message sender w Hup);
      cbn [snd fst] ].

(** X5.  [send_message] registers nobody and touches nothing but the
    receiver's side: the stored users are as before, every registry
    entry of another identity is as before, the receiver's entry is as
    before or removed, every socket other than the one registered for
    the receiver is as before, and on every socket the frames written
    before are still there, in front. *)
Theorem send_message_touches_only_receiver (dumps : Message.t → Result json)
    (msg_fresh : Fresh) (message : MessageCreate.t) (sender : string)
    (w : World) :
  let receiver := MessageCreate.receiver message in
  let w' := exec (send_message dumps msg_fresh message sender) w in
  db_users w' = db_users w
  ∧ (∀ other, other ≠ receiver →
       active_connections w' !! other = active_connections w !! other)
  ∧ (active_connections w' !! receiver = active_connections w !! receiver
     ∨ active_connections w' !! receiver = None)
  ∧ (∀ ws, active_connections w !! receiver ≠ Some ws →
       sockets w' !! ws = sockets w !! ws)
  ∧ (∀ ws, sent ws w `prefix_of` sent ws w')
  ∧ (∀ ws, alive ws w' = alive ws w).
Proof.
  intros receiver w'. subst w' receiver.
  send_message_cases dumps msg_fresh message sender w; simpl.
  - (* pushed *)
    split; [done|]. split; [done|]. split; [by left|].
    split; [|split].
    + intros ws' Hne. rewrite lookup_insert_ne; [done|congruence].
    + intros ws'. unfold sent at 2. simpl.
      destruct (decide (ws' = ws)) as [->|Hne].
      * rewrite lookup_insert_eq. by apply prefix_app_r.
      * by rewrite lookup_insert_ne.
    + intros ws'. unfold alive at 1. simpl.
      destruct (decide (ws' = ws)) as [->|Hne].
      * by rewrite lookup_insert_eq.
      * by rewrite lookup_insert_ne.
  - (* the transport is broken *)
    split; [done|]. split; [intros; by rewrite lookup_delete_ne|].
    split; [right; apply lookup_delete_eq|]. done.
  - (* the text could not be built *)
    split; [done|]. split; [intros; by rewrite lookup_delete_ne|].
    split; [right; apply lookup_delete_eq|]. done.
  - (* nobody registered *)
    split; [done|]. split; [done|]. split; [by left|]. done.
  - (* the database is down *)
    split; [done|]. split; [done|]. split; [by left|]. done.
Qed.

Lemma sent_written ws s (m : gmap nat WebSocket) w :
  sent ws (set_sockets (<[ws := s]> m) w) = ws_sent s.
Proof. unfold sent. simpl. by rewrite lookup_insert_eq. Qed.

Lemma alive_written ws s (m : gmap nat WebSocket) w :
  alive ws (set_sockets (<[ws := s]> m) w) = ws_alive s.
Proof. unfold alive. simpl. by rewrite lookup_insert_eq. Qed.

(** X6.  The live push never goes through.  With the notification text
    as the code builds it, [send_message] writes no frame to any
    socket, in whatever state: the call that builds the text raises
    inside the [try].  When the database takes the write, the message is
    stored and returned, and afterwards the receiver has no entry in the
    registry, also when a channel was registered for it and its
    transport works; the other entries are as before. *)
Theorem send_message_never_notifies (msg_fresh : Fresh)
    (message : MessageCreate.t) (sender : string) (w : World) :
  let receiver := MessageCreate.receiver message in
  let msg :=
    Message.init msg_fresh sender receiver
      (MessageCreate.encrypted_content message) in
  let w' := exec (send_message dumps_raises msg_fresh message sender) w in
  sockets w' = sockets w
  ∧ (db_available w = true →
       send_message dumps_raises msg_fresh message sender w = (Ok msg, w')
       ∧ db_messages w' = db_messages w ++ [Message.stored msg]
       ∧ active_connections w' = delete receiver (active_connections w)).
Proof.
  intros receiver msg w'. subst w'. unfold exec.
  destruct (db_available w) eqn:Hup.
  - rewrite (send_message_stored dumps_raises msg_fresh message sender w Hup).
    cbv zeta. fold receiver msg. cbn [fst snd dumps_raises].
    destruct (active_connections w !! receiver) as [ws|] eqn:Hreg.
    + split; [done|]. intros _. done.
    + split; [done|]. intros _. split; [done|]. split; [done|].
      simpl. by rewrite delete_id.
  - rewrite send_message_down by done. split; [done|]. intros [=].
Qed.

Lemma get_messages_up user w :
  db_available w = true →
  get_messages user w
  = (Ok (take 1000
           (merge_sort by_timestamp (filter (involves user) (db_messages w)))),
     w).
Proof. intros Hup. unfold_monad. by rewrite Hup. Qed.

Lemma get_messages_down user w :
  db_available w = false → get_messages user w = (Raise StorageError, w).
Proof. intros Hdown. unfold_monad. by rewrite Hdown. Qed.

(** X7.  A send does not change what an identity that is neither its
    sender nor its receiver gets from [get_messages]. *)
Theorem send_message_private (dumps : Message.t → Result json)
    (msg_fresh : Fresh) (message : MessageCreate.t) (sender user : string)
    (w : World) :
  user ≠ sender →
  user ≠ MessageCreate.receiver message →
  fst (get_messages user (exec (send_message dumps msg_fresh message sender) w))
  = fst (get_messages user w).
Proof.
  intros Hsender Hreceiver.
  assert (Hother : ∀ w1, db_available w1 = db_available w →
            db_messages w1
            = db_messages w
              ++ [Message.stored
                    (Message.init msg_fresh sender
                       (MessageCreate.receiver message)
                       (MessageCreate.encrypted_content message))] →
            fst (get_messages user w1) = fst (get_messages user w)).
  { intros w1 Havail Hdb. destruct (db_available w) eqn:Hup.
    - rewrite !get_messages_up, Hdb by done. simpl.
      rewrite filter_app, filter_cons_False, filter_nil, app_nil_r; [done|].
      unfold involves. simpl. intros [?|?]; congruence.
    - by rewrite !get_messages_down. }
  send_message_cases dumps msg_fresh message sender w;
    try (apply Hother; simpl; congruence).
  done.
Qed.

(** X8.  A stale entry is removed by the first send that meets it.  With
    a channel registered for the receiver whose transport is broken, a
    first send stores its message and removes the entry; a second send
    to the same receiver stores its message after the first and changes
    neither the registry nor any socket. *)
Theorem stale_entry_removed_once (dumps : Message.t → Result json)
    (fresh1 fresh2 : Fresh) (message1 message2 : MessageCreate.t)
    (sender1 sender2 : string) (ws : nat) (w : World) :
  let receiver := MessageCreate.receiver message1 in
  db_available w = true →
  MessageCreate.receiver message2 = receiver →
  active_connections w !! receiver = Some ws →
  alive ws w = false →
  ∃ msg1 msg2 w1 w2,
    send_message dumps fresh1 message1 sender1 w = (Ok msg1, w1)
    ∧ send_message dumps fresh2 message2 sender2 w1 = (Ok msg2, w2)
    ∧ db_messages w2
      = db_messages w ++ [Message.stored msg1; Message.stored msg2]
    ∧ active_connections w1 = delete receiver (active_connections w)
    ∧ active_connections w2 = active_connections w1
    ∧ sockets w1 = sockets w
    ∧ sockets w2 = sockets w.
Proof.
  intros receiver Hup Hsame Hreg Hdead.
  eexists _, _, _, _.
  split; [by apply send_message_stored|]. fold receiver.
  rewrite Hreg, Hdead.
  assert (Hgone : ∀ (text : Result json) w0,
            match text with
            | Ok _ => set_active_connections
                        (delete receiver (active_connections w)) w0
            | Raise _ => set_active_connections
                           (delete receiver (active_connections w)) w0
            end
            = set_active_connections
                (delete receiver (active_connections w)) w0)
    by (by intros []).
  rewrite Hgone.
  split.
  { rewrite send_message_stored by done. cbv zeta. rewrite Hsame. simpl.
    rewrite lookup_delete_eq. reflexivity. }
  simpl. by rewrite <- (assoc_L (++)).
Qed.

(** ** [get_messages] on a history with a ticking clock *)

Lemma StronglySorted_filter {A} (R : relation A) (P : A → Prop)
    `{!∀ x, Decision (P x)} (l : list A) :
  StronglySorted R l → StronglySorted R (filter P l).
Proof.
  induction 1 as [|x l Hl IH Hx]; [constructor|].
  rewrite filter_cons. destruct (decide (P x)); [|done].
  constructor; [done|].
  apply Forall_forall. intros y Hy. apply list_elem_of_filter in Hy as [_ Hy].
  by apply (proj1 (Forall_forall _ _) Hx).
Qed.

Lemma strictly_earlier_inj (l : list Message.t) (x y : Message.t) :
  StronglySorted strictly_earlier l →
  x ∈ l → y ∈ l → Message.timestamp x = Message.timestamp y → x = y.
Proof.
  induction 1 as [|a l Hl IH Ha]; intros Hx Hy Heq.
  - by apply elem_of_nil in Hx.
  - rewrite Forall_forall in Ha. unfold strictly_earlier in Ha.
    apply elem_of_cons in Hx as [->|Hx]; apply elem_of_cons in Hy as [->|Hy].
    + done.
    + specialize (Ha _ Hy). lia.
    + specialize (Ha _ Hx). lia.
    + by apply IH.
Qed.

(** Sorting by timestamp leaves a list with strictly increasing
    timestamps as it is. *)
Lemma merge_sort_ticking (l : list Message.t) :
  StronglySorted strictly_earlier l → merge_sort by_timestamp l = l.
Proof.
  intros Hstrict.
  apply (StronglySorted_unique_strong by_timestamp).
  - intros x1 x2 Hx1 Hx2 H12 H21.
    rewrite merge_sort_Permutation in Hx1.
    apply (strictly_earlier_inj l); [done..|].
    unfold by_timestamp in *. lia.
  - apply (StronglySorted_merge_sort _).
  - induction Hstrict as [|x l Hl IH Hx]; constructor; [done|].
    eapply Forall_impl; [exact Hx|]. unfold strictly_earlier, by_timestamp.
    intros; lia.
  - apply merge_sort_Permutation.
Qed.

(** X9.  When the stored messages carry strictly increasing timestamps
    in the order they were stored (the clock ticked between any two
    sends), [get_messages] returns the messages of the identity in the
    order they were stored, the first 1000 of them. *)
Theorem get_messages_insertion_order (user : string) (w : World) :
  db_available w = true →
  StronglySorted strictly_earlier (db_messages w) →
  get_messages user w
  = (Ok (take 1000 (filter (involves user) (db_messages w))), w).
Proof.
  intros Hup Hticks. rewrite get_messages_up by done.
  by rewrite merge_sort_ticking by by apply StronglySorted_filter.
Qed.

(** ** The live channel handler *)

Lemma websocket_turn_text ws user data w :
  alive ws w = true →
  websocket_turn ws user (Text data) w
  = (Ok Open,
     set_sockets
       (<[ws := {| ws_alive := true; ws_sent := sent ws w ++ [pong data] |}]>
          (sockets w)) w).
Proof. intros Halive. unfold_monad. by rewrite Halive. Qed.

Lemma websocket_turn_closing ws user r w :
  r = Disconnect ∨ r = ReceiveError →
  websocket_turn ws user r w
  = (Ok Closed, set_active_connections (delete user (active_connections w)) w).
Proof. by intros [-> | ->]. Qed.

Lemma websocket_loop_cons ws user r rs w :
  websocket_loop ws user (r :: rs) w
  = match websocket_turn ws user r w with
    | (Ok Open, w') => websocket_loop ws user rs w'
    | (Ok p, w') => (Ok p, w')
    | (Raise e, w') => (Raise e, w')
    end.
Proof.
  simpl. unfold bind. by destruct (websocket_turn ws user r w) as [[[]|]].
Qed.

(** X10.  On a channel whose transport works, a run of the loop over
    any number of received texts answers each with its pong, in the
    order received, and is still in the loop; nothing but that socket
    changes. *)
Theorem websocket_loop_pongs (ws : nat) (user : string) (datas : list string)
    (w : World) :
  alive ws w = true →
  ∃ w',
    websocket_loop ws user (Text <$> datas) w = (Ok Open, w')
    ∧ sent ws w' = sent ws w ++ (pong <$> datas)
    ∧ alive ws w' = true
    ∧ active_connections w' = active_connections w
    ∧ db_messages w' = db_messages w
    ∧ db_users w' = db_users w
    ∧ (∀ ws', ws' ≠ ws → sockets w' !! ws' = sockets w !! ws').
Proof.
  revert w. induction datas as [|data datas IH]; intros w Halive.
  - exists w. rewrite app_nil_r. done.
  - simpl. unfold bind at 1. rewrite websocket_turn_text by done.
    edestruct IH as (w' & Hloop & Hsent & Halive' & Hreg & Hmsgs & Husers & Hother);
      [|exists w'; split; [exact Hloop|]].
    { by rewrite alive_written. }
    rewrite sent_written in Hsent. simpl in *.
    rewrite Hsent, <- (assoc_L (++)).
    do 5 (split; [done|]).
    intros ws' Hne. rewrite Hother, lookup_insert_ne; done.
Qed.

(** X11.  The life of a channel.  A channel is opened on a working
    transport, receives some texts and then its read fails (the peer
    disconnects, or another error): the handler ends, having answered
    each text with its pong; whatever would have been received later is
    never read; the user's entry is gone, so a registry that had no
    entry for the user is as it was before the channel was opened; the
    database and the other sockets are untouched. *)
Theorem websocket_endpoint_lifecycle (ws : nat) (user : string)
    (datas : list string) (r : received) (later : list received) (w : World) :
  alive ws w = true →
  r = Disconnect ∨ r = ReceiveError →
  ∃ w',
    websocket_endpoint ws user ((Text <$> datas) ++ r :: later) w
    = (Ok Closed, w')
    ∧ sent ws w' = sent ws w ++ (pong <$> datas)
    ∧ active_connections w' = delete user (active_connections w)
    ∧ (active_connections w !! user = None →
         active_connections w' = active_connections w)
    ∧ db_messages w' = db_messages w
    ∧ db_users w' = db_users w
    ∧ (∀ ws', ws' ≠ ws → sockets w' !! ws' = sockets w !! ws').
Proof.
  intros Halive Hr.
  assert (Hloop : ∀ w0, alive ws w0 = true →
            ∃ w',
              websocket_loop ws user ((Text <$> datas) ++ r :: later) w0
              = (Ok Closed, w')
              ∧ sent ws w' = sent ws w0 ++ (pong <$> datas)
              ∧ active_connections w' = delete user (active_connections w0)
              ∧ db_messages w' = db_messages w0
              ∧ db_users w' = db_users w0
              ∧ (∀ ws', ws' ≠ ws → sockets w' !! ws' = sockets w0 !! ws')).
  { clear w Halive. induction datas as [|data datas IH]; intros w Halive.
    - simpl. unfold bind at 1. rewrite websocket_turn_closing by done.
      eexists. split; [reflexivity|]. rewrite app_nil_r. done.
    - simpl. unfold bind at 1. rewrite websocket_turn_text by done.
      edestruct IH as (w' & Hrun & Hsent & Hreg & Hmsgs & Husers & Hother);
        [|exists w'; split; [exact Hrun|]].
      { by rewrite alive_written. }
      rewrite sent_written in Hsent. simpl in *.
      rewrite Hsent, <- (assoc_L (++)).
      do 4 (split; [done|]).
      intros ws' Hne. rewrite Hother, lookup_insert_ne; done. }
  destruct (Hloop (set_active_connections (<[user := ws]> (active_connections w)) w))
    as (w' & Hrun & Hsent & Hreg & Hmsgs & Husers & Hother); [done|].
  exists w'. split.
  { unfold websocket_endpoint, websocket_open. unfold_monad.
    rewrite Halive. exact Hrun. }
  simpl in *. rewrite Hreg, delete_insert_eq.
  do 2 (split; [done|]).
  split; [by apply delete_id|]. done.
Qed.

(** The effect of one turn on everything but the handler's own entry
    and socket. *)
Lemma websocket_turn_local ws user r w :
  let w' := exec (websocket_turn ws user r) w in
  db_available w' = db_available w
  ∧ db_messages w' = db_messages w
  ∧ db_users w' = db_users w
  ∧ (∀ other, other ≠ user →
       active_connections w' !! other = active_connections w !! other)
  ∧ (∀ ws', ws' ≠ ws → sockets w' !! ws' = sockets w !! ws')
  ∧ (∀ ws', sent ws' w `prefix_of` sent ws' w')
  ∧ (∀ ws', alive ws' w' = alive ws' w).
Proof.
  unfold exec.
  destruct (websocket_turn_cases ws user r w)
    as [(data & _ & Halive & ->)|[_ ->]]; simpl.
  - do 4 (split; [done|]). split; [|split].
    + intros ws' Hne. by rewrite lookup_insert_ne.
    + intros ws'. destruct (decide (ws' = ws)) as [->|Hne].
      * rewrite sent_written. by apply prefix_app_r.
      * unfold sent. simpl. by rewrite lookup_insert_ne.
    + intros ws'. destruct (decide (ws' = ws)) as [->|Hne].
      * by rewrite alive_written.
      * unfold alive. simpl. by rewrite lookup_insert_ne.
  - do 3 (split; [done|]).
    split; [intros; by rewrite lookup_delete_ne|]. done.
Qed.

(** X12.  However it runs and on whatever it receives,
    [websocket_endpoint] leaves the database, the registry entries of
    the other identities and the other sockets as they were, and only
    adds frames to its own socket; and when the handshake fails it
    raises and changes nothing at all, so that no entry is registered
    for the user. *)
Theorem websocket_endpoint_local (ws : nat) (user : string)
    (rs : list received) (w : World) :
  let w' := exec (websocket_endpoint ws user rs) w in
  db_messages w' = db_messages w
  ∧ db_users w' = db_users w
  ∧ (∀ other, other ≠ user →
       active_connections w' !! other = active_connections w !! other)
  ∧ (∀ ws', ws' ≠ ws → sockets w' !! ws' = sockets w !! ws')
  ∧ sent ws w `prefix_of` sent ws w'
  ∧ (alive ws w = false →
       websocket_endpoint ws user rs w = (Raise TransportError, w)).
Proof.
  assert (Hloop : ∀ w0,
            let w' := exec (websocket_loop ws user rs) w0 in
            db_messages w' = db_messages w0
            ∧ db_users w' = db_users w0
            ∧ (∀ other, other ≠ user →
                 active_connections w' !! other = active_connections w0 !! other)
            ∧ (∀ ws', ws' ≠ ws → sockets w' !! ws' = sockets w0 !! ws')
            ∧ sent ws w0 `prefix_of` sent ws w').
  { induction rs as [|r rs IH]; intros w0; [done|].
    unfold exec. rewrite websocket_loop_cons.
    pose proof (websocket_turn_local ws user r w0) as Hturn.
    unfold exec in Hturn. simpl in Hturn.
    destruct Hturn as (_ & Hm & Hu & Hreg & Hsock & Hsent & _).
    destruct (websocket_turn_cases ws user r w0)
      as [(data & _ & _ & Heq)|[_ Heq]]; rewrite Heq in *; simpl in *.
    - specialize (IH (set_sockets
                        (<[ws := {| ws_alive := true;
                                    ws_sent := sent ws w0 ++ [pong data] |}]>
                           (sockets w0)) w0)).
      unfold exec in IH. simpl in IH.
      destruct IH as (IHm & IHu & IHreg & IHsock & IHsent).
      split; [done|]. split; [done|].
      split. { intros other Hne. by rewrite IHreg. }
      split. { intros ws' Hne. by rewrite IHsock, Hsock. }
      etrans; [apply Hsent|exact IHsent].
    - done. }
  intros w'. subst w'. unfold exec, websocket_endpoint, websocket_open.
  unfold_monad. destruct (alive ws w) eqn:Halive.
  - specialize (Hloop (set_active_connections
                         (<[user := ws]> (active_connections w)) w)).
    unfold exec in Hloop. simpl in Hloop.
    destruct Hloop as (Hm & Hu & Hreg & Hsock & Hsent).
    split; [done|]. split; [done|].
    split. { intros other Hne. by rewrite Hreg, lookup_insert_ne. }
    split; [done|]. split; [done|]. done.
  - done.
Qed.

(** ** Sends and live channels together *)

Lemma websocket_open_alive ws user w :
  alive ws w = true →
  websocket_open ws user w
  = (Ok Open, set_active_connections (<[user := ws]> (active_connections w)) w).
Proof. intros Halive. unfold_monad. by rewrite Halive. Qed.

(** X14.  After the handler of a superseded channel has ended, the
    channel that superseded it gets no notifications.  Two channels are
    opened for the receiver, the read of the first fails, and then a
    message is sent to the receiver: the message is stored and returned,
    and no frame is written to any socket, although the second channel
    still works. *)
Theorem stale_close_silences_successor (dumps : Message.t → Result json)
    (msg_fresh : Fresh) (message : MessageCreate.t) (sender : string)
    (c1 c2 : nat) (r : received) (w : World) :
  let X := MessageCreate.receiver message in
  let msg :=
    Message.init msg_fresh sender X (MessageCreate.encrypted_content message) in
  db_available w = true →
  alive c1 w = true →
  alive c2 w = true →
  r = Disconnect ∨ r = ReceiveError →
  let w3 :=
    exec (websocket_open c1 X ;; websocket_open c2 X ;; websocket_turn c1 X r)
      w in
  ∃ w4,
    send_message dumps msg_fresh message sender w3 = (Ok msg, w4)
    ∧ db_messages w4 = db_messages w ++ [Message.stored msg]
    ∧ sockets w4 = sockets w
    ∧ alive c2 w4 = true
    ∧ active_connections w4 !! X = None.
Proof.
  intros X msg Hup H1 H2 Hr w3.
  assert (Hw3 : w3 = set_active_connections
                       (delete X (<[X := c2]> (<[X := c1]>
                                                 (active_connections w)))) w).
  { subst w3. unfold exec, bind.
    rewrite websocket_open_alive by done.
    rewrite websocket_open_alive by done.
    by rewrite websocket_turn_closing. }
  rewrite Hw3. eexists. split; [by apply send_message_stored|].
  fold X msg. simpl. rewrite lookup_delete_eq. simpl.
  do 2 (split; [done|]). split; [done|apply lookup_delete_eq].
Qed.

(** ** The server as a whole *)

Lemma serve_from_cons (dumps : Message.t → Result json) rq rqs s :
  serve_from dumps (rq :: rqs) s = serve_from dumps rqs (step dumps rq s).
Proof. done. Qed.

Lemma users_find_one_run username w :
  users_find_one username w
  = if db_available w then (Ok (head (users_named username w)), w)
    else (Raise StorageError, w).
Proof. unfold users_named. unfold_monad. by destruct (db_available w). Qed.

Lemma messages_insert_one_run m w :
  messages_insert_one m w
  = if db_available w
    then (Ok tt, set_db_messages (db_messages w ++ [Message.stored m]) w)
    else (Raise StorageError, w).
Proof. unfold_monad. by destruct (db_available w). Qed.

Lemma login_resume_run user_fresh token_uuid username existing_user w :
  exec (login_resume user_fresh token_uuid username existing_user) w
  = match existing_user with
    | Some _ => w
    | None =>
        if db_available w
        then set_db_users
               (db_users w ++ [User.stored (User.init user_fresh username)]) w
        else w
    end.
Proof.
  unfold login_resume. unfold_monad.
  destruct existing_user; [done|]. by destruct (db_available w).
Qed.

Lemma login_local user_fresh token_uuid request w :
  let w' := exec (login user_fresh token_uuid request) w in
  db_available w' = db_available w
  ∧ db_messages w' = db_messages w
  ∧ active_connections w' = active_connections w
  ∧ sockets w' = sockets w
  ∧ (db_users w' = db_users w
     ∨ ∃ username,
         USERS !! LoginRequest.password request = Some username
         ∧ users_named username w = []
         ∧ db_users w'
           = db_users w ++ [User.stored (User.init user_fresh username)]).
Proof.
  unfold exec.
  destruct (USERS !! LoginRequest.password request) as [username|] eqn:Hknown.
  - destruct (db_available w) eqn:Hup.
    + rewrite (login_recognised _ _ _ username) by done. simpl.
      destruct (users_named username w) eqn:Hnamed; simpl.
      * do 4 (split; [done|]). right. by exists username.
      * do 4 (split; [done|]). by left.
    + rewrite (login_recognised_down _ _ _ username) by done. simpl.
      do 4 (split; [done|]). by left.
  - rewrite login_unrecognized_raises by done. simpl.
    do 4 (split; [done|]). by left.
Qed.

Lemma send_message_sockets (dumps : Message.t → Result json) msg_fresh message
    sender w :
  let w' := exec (send_message dumps msg_fresh message sender) w in
  db_available w' = db_available w
  ∧ db_users w' = db_users w
  ∧ db_messages w'
    = db_messages w ++ (if db_available w
                        then posted (PostMessages msg_fresh message sender)
                        else [])
  ∧ (∀ ws, sent ws w `prefix_of` sent ws w')
  ∧ (∀ ws, alive ws w' = alive ws w).
Proof.
  intros w'. subst w'.
  send_message_cases dumps msg_fresh message sender w; simpl;
    rewrite ?app_nil_r; try done.
  do 3 (split; [done|]). split.
  - intros ws'. destruct (decide (ws' = ws)) as [->|Hne].
    + rewrite sent_written. by apply prefix_app_r.
    + unfold sent. simpl. by rewrite lookup_insert_ne.
  - intros ws'. destruct (decide (ws' = ws)) as [->|Hne].
    + by rewrite alive_written.
    + unfold alive. simpl. by rewrite lookup_insert_ne.
Qed.

Lemma send_message_push_local (dumps : Message.t → Result json) msg receiver w :
  let w' := exec (send_message_push dumps msg receiver) w in
  db_available w' = db_available w
  ∧ db_users w' = db_users w
  ∧ db_messages w' = db_messages w
  ∧ (∀ ws, sent ws w `prefix_of` sent ws w')
  ∧ (∀ ws, alive ws w' = alive ws w)
  ∧ (∀ user ws, active_connections w' !! user = Some ws →
       active_connections w !! user = Some ws).
Proof.
  unfold exec. rewrite send_message_push_run. simpl.
  destruct (active_connections w !! receiver) as [ws|] eqn:Hreg; [|done].
  assert (Hpop : ∀ user ws',
            delete receiver (active_connections w) !! user = Some ws' →
            active_connections w !! user = Some ws').
  { intros user ws' Hlook. by apply lookup_delete_Some in Hlook as [_ ?]. }
  destruct (dumps msg) as [text|e]; [|done].
  destruct (alive ws w) eqn:Halive; [|done].
  simpl. do 3 (split; [done|]). split; [|split; [|done]].
  - intros ws'. destruct (decide (ws' = ws)) as [->|Hne].
    + rewrite sent_written. by apply prefix_app_r.
    + unfold sent. simpl. by rewrite lookup_insert_ne.
  - intros ws'. destruct (decide (ws' = ws)) as [->|Hne].
    + by rewrite alive_written.
    + unfold alive. simpl. by rewrite lookup_insert_ne.
Qed.

Lemma websocket_open_local ws user w :
  let w' := exec (websocket_open ws user) w in
  db_available w' = db_available w
  ∧ db_users w' = db_users w
  ∧ db_messages w' = db_messages w
  ∧ sockets w' = sockets w.
Proof. unfold_monad. by destruct (alive ws w). Qed.

Lemma get_messages_local user w : exec (get_messages user) w = w.
Proof.
  unfold exec. destruct (db_available w) eqn:Hup.
  - by rewrite get_messages_up.
  - by rewrite get_messages_down.
Qed.

(** What one piece does to the history and to the sockets. *)
Lemma step_local (dumps : Message.t → Result json) rq (s : Server) :
  let s' := step dumps rq s in
  db_available s'.1 = db_available s.1
  ∧ db_messages s'.1
    = db_messages s.1 ++ (if db_available s.1 then posted rq else [])
  ∧ (∀ ws, sent ws s.1 `prefix_of` sent ws s'.1)
  ∧ (∀ ws, alive ws s'.1 = alive ws s.1).
Proof.
  destruct s as [w parked].
  assert (Hnil : ∀ l : list Message.t,
            l = l ++ (if db_available w then [] else [])).
  { intros l. destruct (db_available w); by rewrite app_nil_r. }
  destruct rq as [user_fresh token_uuid body|user|msg_fresh body sender|
                  |ws user|ws user r
                  |key user_fresh token_uuid body|key msg_fresh body sender
                  |key]; simpl.
  - destruct (login_local user_fresh token_uuid body w)
      as (Ha & Hm & _ & Hs & _).
    split; [done|]. split; [by rewrite Hm|]. unfold sent, alive. by rewrite Hs.
  - by rewrite get_messages_local.
  - destruct (send_message_sockets dumps msg_fresh body sender w)
      as (Ha & _ & Hm & Hsent & Halive). done.
  - done.
  - destruct (websocket_open_local ws user w) as (Ha & _ & Hm & Hs).
    split; [done|]. split; [by rewrite Hm|]. unfold sent, alive. by rewrite Hs.
  - destruct (websocket_turn_local ws user r w)
      as (Ha & Hm & _ & _ & _ & Hsent & Halive).
    split; [done|]. split; [by rewrite Hm|]. done.
  - destruct (USERS !! LoginRequest.password body); [|done].
    rewrite users_find_one_run.
    destruct (db_available w) eqn:Hup; simpl; by rewrite ?app_nil_r, ?Hup.
  - rewrite messages_insert_one_run.
    destruct (db_available w) eqn:Hup; simpl; by rewrite ?app_nil_r, ?Hup.
  - destruct (parked !! key) as [[user_fresh token_uuid username existing|msg receiver]|];
      simpl; [| |done].
    + rewrite login_resume_run.
      destruct existing; [done|].
      destruct (db_available w) eqn:Hup; simpl; rewrite ?Hup, ?app_nil_r; done.
    + destruct (send_message_push_local dumps msg receiver w)
        as (Ha & _ & Hm & Hsent & Halive & _).
      split; [done|]. split; [by rewrite Hm|]. done.
Qed.

Lemma serve_from_database (dumps : Message.t → Result json) rqs (s : Server) :
  db_available (serve_from dumps rqs s).1 = db_available s.1
  ∧ db_messages (serve_from dumps rqs s).1
    = db_messages s.1 ++ (if db_available s.1 then rqs ≫= posted else []).
Proof.
  revert s. induction rqs as [|rq rqs IH]; intros s.
  - simpl. split; [done|]. destruct (db_available s.1); by rewrite app_nil_r.
  - rewrite serve_from_cons. destruct (IH (step dumps rq s)) as [-> ->].
    destruct (step_local dumps rq s) as (Ha & Hm & _).
    rewrite Ha, Hm. split; [done|]. destruct (db_available s.1).
    + by rewrite bind_cons, (assoc_L (++)).
    + by rewrite !app_nil_r.
Qed.

(** X15.  The history is the sequence of the writes of the sends.
    Whatever pieces are served (logins, fetches, sends whose push
    succeeds or fails, calls suspended at the database and resumed
    later, channels opening, answering and closing), the stored messages
    afterwards are the messages stored before followed by one document
    for each send, in the order in which the sends reached the
    database, as long as the database takes writes; nothing is ever
    removed, changed or reordered. *)
Theorem serve_history (dumps : Message.t → Result json) (rqs : list request)
    (w : World) :
  db_messages (serve dumps rqs w)
  = db_messages w ++ (if db_available w then rqs ≫= posted else []).
Proof. apply (serve_from_database dumps rqs (w, ∅)). Qed.

(** X17.  Whatever pieces are served, a frame once written to a socket
    stays where it is: on every socket the frames written before are a
    prefix of the frames written afterwards. *)
Theorem serve_frames (dumps : Message.t → Result json) (rqs : list request)
    (ws : nat) (w : World) :
  sent ws w `prefix_of` sent ws (serve dumps rqs w).
Proof.
  unfold serve. generalize (∅ : gmap nat suspended). intros parked.
  change w with (w, parked).1 at 1. generalize (w, parked). clear w parked.
  induction rqs as [|rq rqs IH]; intros s; [done|].
  rewrite serve_from_cons. etrans; [|apply IH].
  by destruct (step_local dumps rq s) as (_ & _ & Hsent & _).
Qed.

(** *** The stored users *)

Lemma users_kept_none w0 w username :
  users_kept w0 w → users_named username w = [] → users_named username w0 = [].
Proof.
  intros (_ & _ & Hsame) Hnone.
  destruct (users_named username w0) as [|u us] eqn:Hw0; [done|].
  rewrite Hsame in Hnone by by rewrite Hw0. by rewrite Hw0 in Hnone.
Qed.

Lemma users_kept_add w0 w user_fresh username :
  users_kept w0 w →
  (∃ password, USERS !! password = Some username) →
  users_named username w0 = [] →
  users_kept w0
    (set_db_users (db_users w ++ [User.stored (User.init user_fresh username)])
       w).
Proof.
  intros (Hprefix & Hin & Hsame) Hknown Hnone. split; [|split]; simpl.
  - by apply prefix_app_r.
  - intros u Hu. apply elem_of_app in Hu as [Hu|Hu]; [by apply Hin|].
    apply list_elem_of_singleton in Hu as ->. by right.
  - intros name Hname. unfold users_named at 1. simpl.
    rewrite filter_app, filter_cons_False, filter_nil, app_nil_r.
    + by apply Hsame.
    + simpl. intros ->. by rewrite Hnone in Hname.
Qed.

Lemma users_kept_same w0 w w' :
  users_kept w0 w → db_users w' = db_users w → users_kept w0 w'.
Proof. unfold users_kept, users_named. by intros H ->. Qed.

Lemma logins_kept_delete w0 parked key :
  logins_kept w0 parked → logins_kept w0 (delete key parked).
Proof.
  intros Hp k f tok u e Hlook.
  apply lookup_delete_Some in Hlook as [_ Hlook]. by apply (Hp k f tok).
Qed.

Lemma step_users (dumps : Message.t → Result json) rq w0 (s : Server) :
  users_kept w0 s.1 → logins_kept w0 s.2 →
  users_kept w0 (step dumps rq s).1 ∧ logins_kept w0 (step dumps rq s).2.
Proof.
  destruct s as [w parked]. simpl. intros Hw Hp.
  destruct rq as [user_fresh token_uuid body|user|msg_fresh body sender|
                  |ws user|ws user r
                  |key user_fresh token_uuid body|key msg_fresh body sender
                  |key]; simpl.
  - split; [|done].
    destruct (login_local user_fresh token_uuid body w)
      as (_ & _ & _ & _ & [Hu|(username & Hknown & Hnone & Hu)]).
    + by apply (users_kept_same w0 w).
    + apply (users_kept_same w0
               (set_db_users
                  (db_users w ++ [User.stored (User.init user_fresh username)])
                  w)); [|exact Hu].
      apply (users_kept_add w0 w user_fresh username Hw); [eauto|].
      by apply (users_kept_none w0 w).
  - by rewrite get_messages_local.
  - split; [|done]. apply (users_kept_same w0 w); [done|].
    by destruct (send_message_sockets dumps msg_fresh body sender w)
      as (_ & Hu & _).
  - done.
  - split; [|done]. apply (users_kept_same w0 w); [done|].
    by destruct (websocket_open_local ws user w) as (_ & Hu & _).
  - split; [|done]. apply (users_kept_same w0 w); [done|].
    by destruct (websocket_turn_local ws user r w) as (_ & _ & Hu & _).
  - destruct (USERS !! LoginRequest.password body) as [username|] eqn:Hknown;
      [|done].
    rewrite users_find_one_run. destruct (db_available w); [|done].
    simpl. split; [done|].
    intros k f tok u e Hlook.
    apply lookup_insert_Some in Hlook as [[_ Heq]|[_ Hlook]];
      [|by apply (Hp k f tok)].
    injection Heq as <- <- <- <-. split; [eauto|].
    intros Hnone. apply (users_kept_none w0 w); [done|].
    by destruct (users_named username w).
  - rewrite messages_insert_one_run. destruct (db_available w); [|done].
    simpl. split; [by apply (users_kept_same w0 w)|].
    intros k f tok u e Hlook.
    apply lookup_insert_Some in Hlook as [[_ Heq]|[_ Hlook]];
      [done|by apply (Hp k f tok)].
  - destruct (parked !! key)
      as [[user_fresh token_uuid username existing|msg receiver]|] eqn:Hkey;
      simpl; [| |done].
    + split; [|by apply logins_kept_delete].
      rewrite login_resume_run.
      destruct existing as [u|]; [done|].
      destruct (db_available w); [|done].
      destruct (Hp key user_fresh token_uuid username None Hkey)
        as [Hknown Hnone].
      by apply users_kept_add; [|done|apply Hnone].
    + split; [|by apply logins_kept_delete].
      apply (users_kept_same w0 w); [done|].
      by destruct (send_message_push_local dumps msg receiver w)
        as (_ & Hu & _).
Qed.

Lemma serve_from_users (dumps : Message.t → Result json) rqs w0 (s : Server) :
  users_kept w0 s.1 → logins_kept w0 s.2 →
  users_kept w0 (serve_from dumps rqs s).1.
Proof.
  revert s. induction rqs as [|rq rqs IH]; intros s Hw Hp; [done|].
  rewrite serve_from_cons.
  destruct (step_users dumps rq w0 s Hw Hp) as [Hw' Hp']. by apply IH.
Qed.

(** X16.  Whatever pieces are served, also when calls of [login] are
    suspended at the database and resumed after other calls, the stored
    users are only added to, at the end; a user is added only under a
    name to which [USERS] maps a password; and the users of a name that
    had a user at the start stay as they were.  (Two logins of a new
    name that are both suspended before either has stored its user store
    two users of that name: see [interleaved_logins] below.) *)
Theorem serve_users (dumps : Message.t → Result json) (rqs : list request)
    (w : World) :
  let w' := serve dumps rqs w in
  db_users w `prefix_of` db_users w'
  ∧ (∀ u, u ∈ db_users w' →
       u ∈ db_users w ∨ ∃ password, USERS !! password = Some (User.username u))
  ∧ (∀ name, users_named name w ≠ [] →
       users_named name w' = users_named name w).
Proof.
  apply (serve_from_users dumps rqs w (w, ∅)).
  - split; [done|]. split; [by left|done].
  - intros key f tok u e Hlook. simpl in Hlook.
    by rewrite lookup_empty in Hlook.
Qed.

(** *** The registry *)

Lemma step_registry (dumps : Message.t → Result json) rq (s : Server) user ws :
  active_connections (step dumps rq s).1 !! user = Some ws →
  active_connections s.1 !! user = Some ws ∨ rq = WsOpen ws user.
Proof.
  destruct s as [w parked].
  destruct rq as [user_fresh token_uuid body|user'|msg_fresh body sender|
                  |ws' user'|ws' user' r
                  |key user_fresh token_uuid body|key msg_fresh body sender
                  |key]; simpl.
  - destruct (login_local user_fresh token_uuid body w) as (_ & _ & -> & _).
    by left.
  - rewrite get_messages_local. by left.
  - rewrite send_message_split. unfold exec, bind.
    rewrite messages_insert_one_run. destruct (db_available w); [|by left].
    intros Hlook. left.
    by apply (send_message_push_local dumps _ _ _) in Hlook.
  - by left.
  - unfold_monad. destruct (alive ws' w); simpl; [|by left].
    destruct (decide (user' = user)) as [->|Hne].
    + rewrite lookup_insert_eq. intros [= ->]. by right.
    + rewrite lookup_insert_ne by done. by left.
  - unfold exec.
    destruct (websocket_turn_cases ws' user' r w)
      as [(data & _ & _ & ->)|[_ ->]]; simpl; [by left|].
    intros Hlook. left. by apply lookup_delete_Some in Hlook as [_ ?].
  - destruct (USERS !! LoginRequest.password body); [|by left].
    rewrite users_find_one_run. destruct (db_available w); by left.
  - rewrite messages_insert_one_run. destruct (db_available w); by left.
  - destruct (parked !! key)
      as [[user_fresh token_uuid username existing|msg receiver]|];
      simpl; [| |by left].
    + rewrite login_resume_run. destruct existing; [by left|].
      destruct (db_available w); by left.
    + intros Hlook. left.
      by apply (send_message_push_local dumps _ _ _) in Hlook.
Qed.

(** X18.  Nobody is registered except by opening a channel.  Whatever
    pieces are served, an entry found in the registry afterwards was
    there before, or one of the pieces opened that channel for that
    identity. *)
Theorem serve_registry (dumps : Message.t → Result json) (rqs : list request)
    (user : string) (ws : nat) (w : World) :
  active_connections (serve dumps rqs w) !! user = Some ws →
  active_connections w !! user = Some ws ∨ WsOpen ws user ∈ rqs.
Proof.
  unfold serve. generalize (∅ : gmap nat suspended). intros parked.
  change (active_connections w) with (active_connections (w, parked).1).
  generalize (w, parked). clear w parked.
  induction rqs as [|rq rqs IH]; intros s Hlook; [by left|].
  rewrite serve_from_cons in Hlook.
  destruct (IH _ Hlook) as [Hmid|Hin].
  - destruct (step_registry dumps rq s user ws Hmid) as [?| ->].
    + by left.
    + right. by left.
  - right. by right.
Qed.

(** *** The frames *)

Lemma send_message_push_silent msg receiver w :
  sockets (exec (send_message_push dumps_raises msg receiver) w) = sockets w.
Proof.
  unfold exec. rewrite send_message_push_run. simpl.
  by destruct (active_connections w !! receiver).
Qed.

Lemma sent_same_sockets ws w w' :
  sockets w' = sockets w → ∃ datas, sent ws w' = sent ws w ++ (pong <$> datas).
Proof. intros Hs. exists []. unfold sent. by rewrite Hs, app_nil_r. Qed.

Lemma step_pongs rq (s : Server) ws :
  ∃ datas, sent ws (step dumps_raises rq s).1 = sent ws s.1 ++ (pong <$> datas).
Proof.
  destruct s as [w parked].
  destruct rq as [user_fresh token_uuid body|user|msg_fresh body sender|
                  |ws' user|ws' user r
                  |key user_fresh token_uuid body|key msg_fresh body sender
                  |key]; simpl.
  - apply sent_same_sockets.
    by destruct (login_local user_fresh token_uuid body w) as (_ & _ & _ & Hs & _).
  - rewrite get_messages_local. by apply sent_same_sockets.
  - apply sent_same_sockets.
    rewrite send_message_split. unfold exec, bind.
    rewrite messages_insert_one_run. destruct (db_available w); [|done].
    exact (send_message_push_silent _ _ (set_db_messages _ w)).
  - by apply sent_same_sockets.
  - apply sent_same_sockets.
    by destruct (websocket_open_local ws' user w) as (_ & _ & _ & Hs).
  - unfold exec.
    destruct (websocket_turn_cases ws' user r w)
      as [(data & _ & _ & ->)|[_ ->]]; simpl; [|by apply sent_same_sockets].
    destruct (decide (ws = ws')) as [->|Hne].
    + exists [data]. by rewrite sent_written.
    + exists []. unfold sent. simpl. by rewrite lookup_insert_ne, app_nil_r.
  - destruct (USERS !! LoginRequest.password body);
      [|by apply sent_same_sockets].
    rewrite users_find_one_run.
    destruct (db_available w); by apply sent_same_sockets.
  - rewrite messages_insert_one_run.
    destruct (db_available w); by apply sent_same_sockets.
  - destruct (parked !! key)
      as [[user_fresh token_uuid username existing|msg receiver]|];
      simpl; [| |by apply sent_same_sockets].
    + apply sent_same_sockets. rewrite login_resume_run.
      destruct existing; [done|]. by destruct (db_available w).
    + apply sent_same_sockets, send_message_push_silent.
Qed.

(** X13.  The only frames the server ever writes are pongs.  With the
    notification text as the code builds it, whatever pieces are
    served, what is written to a socket after the frames it held before
    is a sequence of pong frames: no notification of a new message is
    ever written. *)
Theorem serve_only_pongs (rqs : list request) (ws : nat) (w : World) :
  ∃ datas,
    sent ws (serve dumps_raises rqs w) = sent ws w ++ (pong <$> datas).
Proof.
  unfold serve. generalize (∅ : gmap nat suspended). intros parked.
  change (sent ws w) with (sent ws (w, parked).1).
  generalize (w, parked). clear w parked.
  induction rqs as [|rq rqs IH]; intros s.
  - exists []. by rewrite app_nil_r.
  - rewrite serve_from_cons.
    destruct (IH (step dumps_raises rq s)) as (later & ->).
    destruct (step_pongs rq s ws) as (first & ->).
    exists (first ++ later). by rewrite fmap_app, (assoc_L (++)).
Qed.

(** *** Sends, then a fetch *)

(** X19.  The documents of a conversation come back in the order in
    which they were stored.  The database answers, and the stored
    messages followed by the documents of the sends (each with its
    creation time cut to milliseconds) carry strictly increasing
    timestamps.  Then, after those sends and any other pieces have been
    served, [get_messages] returns, of the stored messages followed by
    the documents of the sends, those that involve the identity, in that
    order, the first 1000 of them. *)
Theorem serve_then_get_messages (dumps : Message.t → Result json)
    (rqs : list request) (user : string) (w : World) :
  db_available w = true →
  StronglySorted strictly_earlier (db_messages w ++ (rqs ≫= posted)) →
  get_messages user (serve dumps rqs w)
  = (Ok (take 1000
           (filter (involves user) (db_messages w ++ (rqs ≫= posted)))),
     serve dumps rqs w).
Proof.
  intros Hup Hticks.
  destruct (serve_from_database dumps rqs (w, ∅)) as [Ha Hm].
  simpl in Ha, Hm. rewrite Hup in Ha, Hm.
  unfold serve. rewrite get_messages_up, Hm by done.
  by rewrite merge_sort_ticking by by apply StronglySorted_filter.
Qed.

(** * The server on concrete runs *)

(** Two logins of Alpha on a server without users, both suspended in
    [find_one] before either stores its user: two users called Alpha
    are stored. *)
Example interleaved_logins :
  let alpha := LoginRequest.Build "alphabravocharlie" in
  db_users
    (serve dumps_raises
       [BeginLogin 1 {| fresh_uuid := "u1"; fresh_utcnow := 5250 |} "t1" alpha;
        BeginLogin 2 {| fresh_uuid := "u2"; fresh_utcnow := 6250 |} "t2" alpha;
        Resume 1; Resume 2]
       (world_with []))
  = [User.Build "u1" "Alpha" 5000; User.Build "u2" "Alpha" 6000].
Proof. reflexivity. Qed.

(** The same two logins, one after the other: one user. *)
Example successive_logins :
  let alpha := LoginRequest.Build "alphabravocharlie" in
  db_users
    (serve dumps_raises
       [BeginLogin 1 {| fresh_uuid := "u1"; fresh_utcnow := 5250 |} "t1" alpha;
        Resume 1;
        BeginLogin 2 {| fresh_uuid := "u2"; fresh_utcnow := 6250 |} "t2" alpha;
        Resume 2]
       (world_with []))
  = [User.Build "u1" "Alpha" 5000].
Proof. reflexivity. Qed.

(** A send suspended in [insert_one] while its receiver connects: the
    push, when the call resumes, meets the new entry and removes it. *)
Example send_suspended_while_receiver_connects :
  let w' :=
    serve dumps_raises
      [BeginMessages 1 {| fresh_uuid := "new"; fresh_utcnow := 7250 |}
         (MessageCreate.Build "Bravo" "CIPHERTEXT_1") "Alpha";
       WsOpen 1 "Bravo";
       Resume 1]
      (world_with_sockets true) in
  active_connections w' !! "Bravo" = None
  ∧ sent 1 w' = []
  ∧ db_messages w' = [Message.Build "new" "Alpha" "Bravo" "CIPHERTEXT_1" 7000].
Proof. repeat split. Qed.

(** What is fetched differs from what [send_message] returned in the
    microseconds of the timestamp. *)
Example fetched_timestamp_in_milliseconds :
  let '(sent_message, w') :=
    send_message dumps_raises {| fresh_uuid := "new"; fresh_utcnow := 7250 |}
      (MessageCreate.Build "Bravo" "CIPHERTEXT_1") "Alpha" (world_with []) in
  sent_message = Ok (Message.Build "new" "Alpha" "Bravo" "CIPHERTEXT_1" 7250)
  ∧ fst (get_messages "Bravo" w')
    = Ok [Message.Build "new" "Alpha" "Bravo" "CIPHERTEXT_1" 7000].
Proof. split; reflexivity. Qed.

(** * The further properties on concrete runs *)

(** X1 on a run: Alpha logs in on a server with no stored user. *)
Lemma login_success_witness :
  ∃ w',
    login {| fresh_uuid := "u1"; fresh_utcnow := 5250 |} "tok"
      (LoginRequest.Build "alphabravocharlie") (world_with (past 3))
    = (Ok (LoginResponse.Build true (Some "Alpha") "tok" "Welcome Alpha!"), w')
    ∧ users_named "Alpha" w' ≠ []
    ∧ db_messages w' = past 3
    ∧ active_connections w' = ∅
    ∧ sockets w' = ∅.
Proof.
  apply (login_success {| fresh_uuid := "u1"; fresh_utcnow := 5250 |} "tok"
           (LoginRequest.Build "alphabravocharlie") "Alpha"
           (world_with (past 3)));
    reflexivity.
Defined.

(** X2 on a run: the response that Alpha gets. *)
Lemma login_response_is_success_witness :
  LoginResponse.success
    (LoginResponse.Build true (Some "Alpha") "tok" "Welcome Alpha!") = true
  ∧ db_available world_busy = true
  ∧ ∃ username,
      USERS !! "alphabravocharlie" = Some username
      ∧ Some "Alpha" = Some username.
Proof.
  apply (login_response_is_success
           {| fresh_uuid := "u1"; fresh_utcnow := 5250 |}
           "tok" (LoginRequest.Build "alphabravocharlie")
           (LoginResponse.Build true (Some "Alpha") "tok" "Welcome Alpha!")
           world_busy world_busy).
  reflexivity.
Defined.

(** X3 on a run: Bravo logs in while the database is down. *)
Lemma login_database_down_witness :
  login {| fresh_uuid := "u1"; fresh_utcnow := 5250 |} "tok"
    (LoginRequest.Build "bravoalphacharlie") world_down
  = (Raise StorageError, world_down).
Proof.
  apply (login_database_down {| fresh_uuid := "u1"; fresh_utcnow := 5250 |}
           "tok" (LoginRequest.Build "bravoalphacharlie") world_down).
  reflexivity.
Defined.

(** X4 on a run: Alpha logs in twice on a server with no stored user. *)
Lemma login_creates_user_once_witness :
  let request := LoginRequest.Build "alphabravocharlie" in
  let w := world_with [] in
  let w1 :=
    exec (login {| fresh_uuid := "u1"; fresh_utcnow := 5250 |} "t1" request) w in
  let w2 :=
    exec (login {| fresh_uuid := "u2"; fresh_utcnow := 6250 |} "t2" request) w1 in
  db_users w1 = [User.Build "u1" "Alpha" 5000] ∧ db_users w2 = db_users w1.
Proof.
  intros request w w1 w2.
  destruct (login_creates_user_once
              {| fresh_uuid := "u1"; fresh_utcnow := 5250 |}
              {| fresh_uuid := "u2"; fresh_utcnow := 6250 |} "t1" "t2"
              request "Alpha" w)
    as (Hfirst & _ & Hsecond & _); [reflexivity|reflexivity|].
  split; [apply Hfirst; reflexivity|exact Hsecond].
Defined.

(** X5 on a run: Alpha sends to Bravo, who is connected on socket 1;
    Charlie's entry and socket 2 are not concerned. *)
Lemma send_message_touches_only_receiver_witness :
  let w' :=
    exec (send_message dumps_raises
            {| fresh_uuid := "new"; fresh_utcnow := 7250 |}
            (MessageCreate.Build "Bravo" "CIPHERTEXT_1") "Alpha") world_busy in
  active_connections w' !! "Charlie" = active_connections world_busy !! "Charlie"
  ∧ sockets w' !! 2%nat = sockets world_busy !! 2%nat.
Proof.
  intros w'.
  destruct (send_message_touches_only_receiver dumps_raises
              {| fresh_uuid := "new"; fresh_utcnow := 7250 |}
              (MessageCreate.Build "Bravo" "CIPHERTEXT_1") "Alpha" world_busy)
    as (_ & Hothers & _ & Hsockets & _).
  split; [apply Hothers; discriminate|apply Hsockets; discriminate].
Defined.

(** X6 on a run: Alpha sends to Bravo, who is connected on socket 1,
    whose transport works. *)
Lemma send_message_never_notifies_witness :
  let msg := Message.Build "new" "Alpha" "Bravo" "CIPHERTEXT_1" 7250 in
  let w' :=
    exec (send_message dumps_raises
            {| fresh_uuid := "new"; fresh_utcnow := 7250 |}
            (MessageCreate.Build "Bravo" "CIPHERTEXT_1") "Alpha") world_busy in
  alive 1 world_busy = true
  ∧ active_connections world_busy !! "Bravo" = Some 1%nat
  ∧ sockets w' = sockets world_busy
  ∧ send_message dumps_raises {| fresh_uuid := "new"; fresh_utcnow := 7250 |}
      (MessageCreate.Build "Bravo" "CIPHERTEXT_1") "Alpha" world_busy
    = (Ok msg, w')
  ∧ db_messages w' = past 3 ++ [Message.stored msg]
  ∧ active_connections w' = delete "Bravo" (active_connections world_busy).
Proof.
  intros msg w'.
  destruct (send_message_never_notifies
              {| fresh_uuid := "new"; fresh_utcnow := 7250 |}
              (MessageCreate.Build "Bravo" "CIPHERTEXT_1") "Alpha" world_busy)
    as (Hsockets & Hup).
  destruct Hup as (Hsend & Hdb & Hreg); [reflexivity|].
  split; [reflexivity|]. split; [reflexivity|].
  split; [exact Hsockets|]. split; [exact Hsend|]. split; [exact Hdb|exact Hreg].
Defined.

(** X7 on a run: what Charlie fetches is not changed by a send from
    Alpha to Bravo. *)
Lemma send_message_private_witness :
  fst (get_messages "Charlie"
         (exec (send_message dumps_raises
                  {| fresh_uuid := "new"; fresh_utcnow := 7250 |}
                  (MessageCreate.Build "Bravo" "CIPHERTEXT_1") "Alpha")
            world_busy))
  = fst (get_messages "Charlie" world_busy).
Proof.
  apply (send_message_private dumps_raises
           {| fresh_uuid := "new"; fresh_utcnow := 7250 |}
           (MessageCreate.Build "Bravo" "CIPHERTEXT_1") "Alpha" "Charlie"
           world_busy);
    discriminate.
Defined.

(** X8 on a run: Bravo is registered with socket 2, whose transport is
    broken, and Alpha sends twice. *)
Lemma stale_entry_removed_once_witness :
  let w := exec (register "Bravo" 2) (world_with_sockets false) in
  ∃ msg1 msg2 w1 w2,
    send_message dumps_raises {| fresh_uuid := "n1"; fresh_utcnow := 7250 |}
      (MessageCreate.Build "Bravo" "ONE") "Alpha" w = (Ok msg1, w1)
    ∧ send_message dumps_raises {| fresh_uuid := "n2"; fresh_utcnow := 8250 |}
        (MessageCreate.Build "Bravo" "TWO") "Alpha" w1 = (Ok msg2, w2)
    ∧ db_messages w2
      = db_messages w ++ [Message.stored msg1; Message.stored msg2]
    ∧ active_connections w1 = delete "Bravo" (active_connections w)
    ∧ active_connections w2 = active_connections w1
    ∧ sockets w1 = sockets w
    ∧ sockets w2 = sockets w.
Proof.
  intros w.
  apply (stale_entry_removed_once dumps_raises
           {| fresh_uuid := "n1"; fresh_utcnow := 7250 |}
           {| fresh_uuid := "n2"; fresh_utcnow := 8250 |}
           (MessageCreate.Build "Bravo" "ONE") (MessageCreate.Build "Bravo" "TWO")
           "Alpha" "Alpha" 2 w);
    reflexivity.
Defined.

(** X9 on a run: three messages stored in three successive
    milliseconds. *)
Lemma get_messages_insertion_order_witness :
  get_messages "Bravo" (world_with (past 3))
  = (Ok (past 3), world_with (past 3)).
Proof.
  apply (get_messages_insertion_order "Bravo" (world_with (past 3))).
  - reflexivity.
  - repeat constructor.
Defined.

(** X10 on a run: two pings on socket 1. *)
Lemma websocket_loop_pongs_witness :
  ∃ w',
    websocket_loop 1 "Alpha" [Text "hello"; Text "again"]
      (world_with_sockets true) = (Ok Open, w')
    ∧ sent 1 w' = [pong "hello"; pong "again"].
Proof.
  destruct (websocket_loop_pongs 1 "Alpha" ["hello"; "again"]
              (world_with_sockets true))
    as (w' & Hloop & Hsent & _); [reflexivity|].
  exists w'. split; [exact Hloop|exact Hsent].
Defined.

(** X11 on a run: a channel of Alpha gets two pings, then the peer
    disconnects, and a late frame is never read. *)
Lemma websocket_endpoint_lifecycle_witness :
  ∃ w',
    websocket_endpoint 1 "Alpha"
      [Text "hello"; Text "again"; Disconnect; Text "late"]
      (world_with_sockets true) = (Ok Closed, w')
    ∧ sent 1 w' = [pong "hello"; pong "again"]
    ∧ active_connections w' = ∅.
Proof.
  destruct (websocket_endpoint_lifecycle 1 "Alpha" ["hello"; "again"]
              Disconnect [Text "late"] (world_with_sockets true))
    as (w' & Hrun & Hsent & _ & Hreg & _); [reflexivity|by left|].
  exists w'. split; [exact Hrun|]. split; [exact Hsent|].
  apply Hreg. reflexivity.
Defined.

(** X12 on a run: the handshake on socket 2 fails. *)
Lemma websocket_endpoint_local_witness :
  websocket_endpoint 2 "Bravo" [Text "hello"] (world_with_sockets false)
  = (Raise TransportError, world_with_sockets false).
Proof.
  destruct (websocket_endpoint_local 2 "Bravo" [Text "hello"]
              (world_with_sockets false)) as (_ & _ & _ & _ & _ & Hrefused).
  apply Hrefused. reflexivity.
Defined.

(** X14 on a run: Bravo opens socket 1, then socket 2, the peer of
    socket 1 disconnects, and Alpha sends. *)
Lemma stale_close_silences_successor_witness :
  let msg := Message.Build "new" "Alpha" "Bravo" "CIPHERTEXT_1" 7250 in
  let w3 :=
    exec (websocket_open 1 "Bravo" ;; websocket_open 2 "Bravo" ;;
          websocket_turn 1 "Bravo" Disconnect) (world_with_sockets true) in
  ∃ w4,
    send_message dumps_raises {| fresh_uuid := "new"; fresh_utcnow := 7250 |}
      (MessageCreate.Build "Bravo" "CIPHERTEXT_1") "Alpha" w3
    = (Ok msg, w4)
    ∧ db_messages w4 = [Message.stored msg]
    ∧ sockets w4 = sockets (world_with_sockets true)
    ∧ alive 2 w4 = true
    ∧ active_connections w4 !! "Bravo" = None.
Proof.
  apply (stale_close_silences_successor dumps_raises
           {| fresh_uuid := "new"; fresh_utcnow := 7250 |}
           (MessageCreate.Build "Bravo" "CIPHERTEXT_1") "Alpha" 1 2 Disconnect
           (world_with_sockets true));
    try reflexivity.
  by left.
Defined.

(** X16 on a run: on a server that stores one user of each name, two
    logins of Alpha that are suspended together, and one of Bravo, add
    no user of the name Alpha. *)
Lemma serve_users_witness :
  let alpha := LoginRequest.Build "alphabravocharlie" in
  let rqs :=
    [BeginLogin 1 {| fresh_uuid := "u3"; fresh_utcnow := 5250 |} "t1" alpha;
     BeginLogin 2 {| fresh_uuid := "u4"; fresh_utcnow := 6250 |} "t2" alpha;
     PostLogin {| fresh_uuid := "u5"; fresh_utcnow := 7250 |} "t3"
       (LoginRequest.Build "bravoalphacharlie");
     Resume 1; Resume 2] in
  users_named "Alpha" (serve dumps_raises rqs world_busy)
  = [User.Build "u1" "Alpha" 0].
Proof.
  intros alpha rqs.
  destruct (serve_users dumps_raises rqs world_busy) as (_ & _ & Hkept).
  apply (Hkept "Alpha"). discriminate.
Defined.

(** X18 on a run: after Bravo opened socket 1 and Bravo sent a message
    to Alpha, the entry of Bravo is the one that was opened. *)
Lemma serve_registry_witness :
  let rqs :=
    [WsOpen 1 "Bravo";
     PostMessages {| fresh_uuid := "new"; fresh_utcnow := 7250 |}
       (MessageCreate.Build "Alpha" "CIPHERTEXT_1") "Bravo"] in
  active_connections (world_with_sockets true) !! "Bravo" = Some 1%nat
  ∨ WsOpen 1 "Bravo" ∈ rqs.
Proof.
  intros rqs.
  apply (serve_registry dumps_raises rqs "Bravo" 1 (world_with_sockets true)).
  reflexivity.
Defined.

(** X19 on a run: Alpha and Bravo exchange two messages, the first
    written while Bravo logs in and opens a channel; Alpha then
    fetches. *)
Lemma serve_then_get_messages_witness :
  let rqs :=
    [BeginLogin 1 {| fresh_uuid := "u1"; fresh_utcnow := 3250 |} "t1"
       (LoginRequest.Build "bravoalphacharlie");
     BeginMessages 2 {| fresh_uuid := "n1"; fresh_utcnow := 7250 |}
       (MessageCreate.Build "Bravo" "ONE") "Alpha";
     Resume 1;
     WsOpen 1 "Bravo";
     Resume 2;
     GetMessages "Bravo";
     WsTurn 1 "Bravo" (Text "ping");
     PostMessages {| fresh_uuid := "n2"; fresh_utcnow := 9100 |}
       (MessageCreate.Build "Alpha" "TWO") "Bravo"] in
  fst (get_messages "Alpha" (serve dumps_raises rqs (world_with_sockets true)))
  = Ok [Message.Build "n1" "Alpha" "Bravo" "ONE" 7000;
        Message.Build "n2" "Bravo" "Alpha" "TWO" 9000].
Proof.
  intros rqs.
  rewrite (serve_then_get_messages dumps_raises rqs "Alpha"
             (world_with_sockets true)).
  - reflexivity.
  - reflexivity.
  - repeat constructor.
Defined.
